(** * ts2gd: the Godot scene resolution model and the [this] keyword rule

    A shallow embedding of [src/project/assets/asset_godot_scene.ts]
    (classes [GodotNode] and [AssetGodotScene]) and of
    [src/parse_node/parse_this_keyword.ts], with the properties the
    specification states about them.

    Conventions of the embedding.
    - A JavaScript [number] used as a resource id is a [Z].
    - A JavaScript string is a [string]; [undefined] is [None].
    - JavaScript truthiness is written out ([truthy_str], [truthy_num]).
    - The back pointers [GodotNode.scene], [GodotNode.project] and
      [AssetGodotScene.project] are explicit arguments of the methods.
    - A [throw] is the [Throw] outcome; the process-wide error list written
      by [addError] is threaded as state. *)

From Stdlib Require Import ZArith List String Ascii Bool Lia.
From Stdlib Require Import DecimalString.
Import ListNotations.
Open Scope string_scope.

(** ** JavaScript values *)

(** [!!s] for [s : string | undefined]: the empty string and [undefined]
    are falsy. *)
Definition truthy_str (s : option string) : bool :=
  match s with
  | Some EmptyString => false
  | Some _ => true
  | None => false
  end.

(** [!!n] for [n : number | undefined] on integers: [0] and [undefined]
    are falsy. *)
Definition truthy_num (n : option Z) : bool :=
  match n with
  | Some z => negb (z =? 0)%Z
  | None => false
  end.

(** [a === b] for [a : string | undefined] and [b : string]. *)
Definition strict_eq_opt (a : option string) (b : string) : bool :=
  match a with
  | Some s => String.eqb s b
  | None => false
  end.

(** [a === b] for [a : number | undefined] and [b : number]. *)
Definition strict_eq_num (a : option Z) (b : Z) : bool :=
  match a with
  | Some z => (z =? b)%Z
  | None => false
  end.

(** [`${n}`] for an integer [n]. *)
Definition string_of_Z (z : Z) : string :=
  NilZero.string_of_int (Z.to_int z).

(** [s.slice(0, -k)]: the prefix without the last [k] code units, empty
    when [s] is shorter than [k]. *)
Definition slice_0_neg (k : nat) (s : string) : string :=
  substring 0 (String.length s - k) s.

(** [chalk.blue] and [chalk.red], as emitted on a colour terminal. *)
Definition esc : string := String (ascii_of_nat 27) EmptyString.
Definition chalk_blue (s : string) : string := esc ++ "[34m" ++ s ++ esc ++ "[39m".
Definition chalk_red (s : string) : string := esc ++ "[31m" ++ s ++ esc ++ "[39m".

(** ** The parsed scene file ([IGodotSceneFile]) *)

(** A call-like value of the config format, e.g. [ExtResource( 1 )]. *)
Record ArgsRef := mkArgsRef {
  args : list Z;
  identifier : string
}.

(** [node.$section]. [type] is declared a [string] but is missing at run
    time on instanced and overriding nodes. *)
Record NodeSection := mkNodeSection {
  sec_name : string;
  sec_type : option string;
  sec_parent : option string;
  sec_groups : option (list string);
  sec_instance : option ArgsRef
}.

(** One element of [IGodotSceneFile.node]; the other keys of the open
    property bag are not read by the resolver. *)
Record NodeProps := mkNodeProps {
  props_section : NodeSection;
  props_script : option ArgsRef
}.

(** [ext_resource[i].$section]. *)
Record ExtResourceSection := mkExtResourceSection {
  ext_path : string;
  ext_type : string;
  ext_id : Z
}.

Record IGodotSceneFile := mkSceneFile {
  ext_resource : option (list ExtResourceSection);
  node : option (list NodeProps)
}.

(** ** [GodotNode] *)

Record GodotNode := mkGodotNode {
  name : string;
  _type : option string;
  isRoot : bool;
  groups : list string;
  parent : option string;
  section : NodeSection;
  scriptExtResourceId : option Z
}.

(** [x?.args?.[0]]. *)
Definition first_arg (r : option ArgsRef) : option Z :=
  match r with
  | Some a => hd_error (args a)
  | None => None
  end.

(** The constructor of [GodotNode]. *)
Definition GodotNode_new (props : NodeProps) : GodotNode :=
  let s := props_section props in
  {| name := sec_name s;
     _type := sec_type s;
     isRoot := if truthy_str (sec_parent s) then false else true;
     groups := match sec_groups s with Some g => g | None => [] end;
     parent := sec_parent s;
     section := s;
     scriptExtResourceId := first_arg (props_script props) |}.

Definition scenePath (this : GodotNode) : string :=
  match parent this with
  | None => "."
  | Some p =>
      if negb (truthy_str (Some p)) then "."
      else if String.eqb p "." then name this
      else p ++ "/" ++ name this
  end.

Definition instanceId (this : GodotNode) : option Z :=
  let iid := first_arg (sec_instance (section this)) in
  if negb (truthy_num iid) && negb (strict_eq_num iid 0) then None else iid.

Definition isInstance (this : GodotNode) : bool :=
  truthy_num (instanceId this).

Definition isInstanceOverride (this : GodotNode) : bool :=
  negb (truthy_str (_type this)) && negb (isInstance this).

(** ** Scenes, assets and the project *)

Record ResourceTemp := mkResourceTemp {
  rt_resPath : string;
  rt_fsPath : string;
  rt_id : Z
}.

Record AssetGodotScene := mkAssetGodotScene {
  scene_fsPath : string;
  scene_resPath : string;
  nodes : list GodotNode;
  resources : list ResourceTemp;
  scene_name : string;
  rootNode : option GodotNode
}.

(** [AssetGlb] and [AssetSourceFile] are declared in files outside this
    unit; only the members read here appear, each method ([tsType],
    [exportedTsClassName]) as the value it returns, so that every statement
    below holds whatever these methods compute. *)
Record AssetGlb := mkAssetGlb {
  glb_fsPath : string;
  glb_tsType : string
}.

Record AssetSourceFile := mkAssetSourceFile {
  sf_resPath : string;
  sf_fsPath : string;
  exportedTsClassName : option string
}.

Inductive BaseAsset :=
| SourceFileAsset (sf : AssetSourceFile)
| GodotSceneAsset (s : AssetGodotScene)
| GlbAsset (g : AssetGlb)
| OtherAsset (fsPath : string).

(** [TsGdProjectClass]: the asset list and the three views of it the
    resolver queries. *)
Record TsGdProjectClass := mkProject {
  assets : list BaseAsset;
  godotScenes : list AssetGodotScene;
  godotGlbs : list AssetGlb;
  sourceFiles : list AssetSourceFile
}.

Definition children (scene : AssetGodotScene) (this : GodotNode) : list GodotNode :=
  let path := scenePath this in
  filter (fun node => strict_eq_opt (parent node) path && negb (isInstanceOverride node))
         (nodes scene).

(** ** Exceptions and the diagnostics sink *)

(** What a [throw] carries: an [Error] with its message, or the engine's
    [TypeError] for a member access on [undefined]. *)
Inductive JsError :=
| Error (message : string)
| TypeError.

Inductive except (A : Type) :=
| Ok (a : A)
| Throw (e : JsError).
Arguments Ok {A} a.
Arguments Throw {A} e.

(** The members of [ErrorName] used by the scene model. *)
Inductive ErrorName := InvalidFile | Ts2GdError.

(** A [TsGdError] without its [stack], which is whatever the engine
    records for [new Error().stack] at the call. *)
Record TsGdError := mkTsGdError {
  description : string;
  error : ErrorName;
  location : string
}.

Definition Sink := list TsGdError.

(** A computation that reads and appends to the sink and may throw.
    [None] is reserved for the embedding running out of recursion fuel. *)
Definition M (A : Type) : Type := Sink -> option (except A * Sink).

Definition ret {A} (a : A) : M A := fun k => Some (Ok a, k).

Definition throw {A} (e : JsError) : M A := fun k => Some (Throw e, k).

Definition out_of_fuel {A} : M A := fun _ => None.

Definition bind {A B} (m : M A) (f : A -> M B) : M B :=
  fun k =>
    match m k with
    | Some (Ok a, k') => f a k'
    | Some (Throw e, k') => Some (Throw e, k')
    | None => None
    end.

Definition lift {A} (r : except A) : M A :=
  match r with
  | Ok a => ret a
  | Throw e => throw e
  end.

Notation "x <- m ;; f" := (bind m (fun x => f))
  (at level 61, m at next level, right associativity).
Notation "m ;;; f" := (bind m (fun _ => f))
  (at level 61, right associativity).

(** Modelled from the spec: [addError] of [errors.ts], which is not part of
    this unit. The sink is an append-only log of structured errors. *)
Definition addError (e : TsGdError) : M unit :=
  fun k => Some (Ok tt, (k ++ [e])%list).

(** ** Instance and script resolution *)

(** The two [Error]s the resolver throws. *)
Definition cant_find_scene (iid : Z) (path : string) : JsError :=
  Error ("Can't find associated scene for id " ++ string_of_Z iid
         ++ " on " ++ path).

Definition expected_resource (sid : Z) (fsPath : string) : JsError :=
  Error ("expected to be able to find a resource with id " ++ string_of_Z sid
         ++ " in script " ++ fsPath ++ ", but did not.").

Inductive Instance :=
| InstScene (s : AssetGodotScene)
| InstGlb (g : AssetGlb).

Definition instance (project : TsGdProjectClass) (scene : AssetGodotScene)
    (this : GodotNode) : except (option Instance) :=
  match instanceId this with
  | None => Ok None
  | Some iid =>
      match find (fun res => (rt_id res =? iid)%Z) (resources scene) with
      | None => Throw (cant_find_scene iid (scenePath this))
      | Some res =>
          match find (fun s => String.eqb (scene_fsPath s) (rt_fsPath res))
                     (godotScenes project) with
          | Some matchingScene => Ok (Some (InstScene matchingScene))
          | None =>
              match find (fun g => String.eqb (glb_fsPath g) (rt_fsPath res))
                         (godotGlbs project) with
              | Some matchingGlb => Ok (Some (InstGlb matchingGlb))
              | None => Ok None
              end
          end
      end
  end.

(** [sf instanceof AssetSourceFile && sf.resPath === resPath], as the
    source file it selects. *)
Definition as_source_file (resPath : string) (a : BaseAsset) : option AssetSourceFile :=
  match a with
  | SourceFileAsset sf => if String.eqb (sf_resPath sf) resPath then Some sf else None
  | _ => None
  end.

(** [assets.find(...) as AssetSourceFile]. *)
Fixpoint find_source_file (resPath : string) (l : list BaseAsset) : option AssetSourceFile :=
  match l with
  | [] => None
  | a :: l' =>
      match as_source_file resPath a with
      | Some sf => Some sf
      | None => find_source_file resPath l'
      end
  end.

Definition getScript (project : TsGdProjectClass) (scene : AssetGodotScene)
    (this : GodotNode) : except (option AssetSourceFile) :=
  let resolve (scriptId : option Z) (sceneContainingScript : AssetGodotScene) :=
    match scriptId with
    | None => Ok None
    | Some sid =>
        if negb (truthy_num (Some sid)) then Ok None
        else
          match find (fun obj => (rt_id obj =? sid)%Z) (resources sceneContainingScript) with
          | None => Throw (expected_resource sid (scene_fsPath scene))
          | Some externalResource =>
              Ok (find_source_file (rt_resPath externalResource) (assets project))
          end
    end in
  if negb (truthy_num (scriptExtResourceId this)) then
    match instance project scene this with
    | Throw e => Throw e
    | Ok (Some (InstScene inst)) =>
        match rootNode inst with
        | None => Throw TypeError
        | Some root => resolve (scriptExtResourceId root) inst
        end
    | Ok _ => resolve (scriptExtResourceId this) scene
    end
  else resolve (scriptExtResourceId this) scene.

(** ** Types of nodes and scenes *)

Definition override_error (this : GodotNode) : TsGdError :=
  {| description := "Error: should never try to get the type of an instance override. This is a ts2gd internal bug. Please report it on GitHub.";
     error := InvalidFile;
     location := name this |}.

Definition missing_instance_error (scene : AssetGodotScene) (this : GodotNode) : TsGdError :=
  {| description := "Error: Your Godot scene " ++ chalk_blue (scene_fsPath scene)
       ++ " refers to " ++ chalk_red (scenePath this)
       ++ ", but it doesn't exist. It may have been deleted from the project. the tstype was "
       ++ scene_resPath scene;
     error := InvalidFile;
     location := name this |}.

(** [GodotNode.tsType], open in the method [tsType] of the instanced
    asset when that asset is a scene. *)
Definition GodotNode_tsType (scene_tsType : AssetGodotScene -> M string)
    (project : TsGdProjectClass) (scene : AssetGodotScene) (this : GodotNode) : M string :=
  let missing := addError (missing_instance_error scene this) ;;; ret "any" in
  let unresolved :=
    if isInstanceOverride this then
      addError (override_error this) ;;; ret "any"
    else
      inst <- lift (instance project scene this) ;;
      instancedSceneType <-
        match inst with
        | Some (InstScene s) => t <- scene_tsType s ;; ret (Some t)
        | Some (InstGlb g) => ret (Some (glb_tsType g))
        | None => ret None
        end ;;
      match instancedSceneType with
      | Some t => if truthy_str (Some t) then ret t else missing
      | None => missing
      end in
  match _type this with
  | Some t => if truthy_str (Some t) then ret t else unresolved
  | None => unresolved
  end.

Definition root_source_file_error (rootScript : AssetSourceFile) : TsGdError :=
  {| description := "Failed to find root source file for " ++ sf_fsPath rootScript;
     error := Ts2GdError;
     location := sf_fsPath rootScript |}.

Definition classname_error (rootScript : AssetSourceFile) : TsGdError :=
  {| description := "Failed to find classname for " ++ sf_fsPath rootScript;
     error := Ts2GdError;
     location := sf_fsPath rootScript |}.

(** The qualified reference [import('<module path>').<class>]. *)
Definition import_type (rootSourceFile : AssetSourceFile) (className : string) : string :=
  "import('" ++ slice_0_neg (String.length ".ts") (sf_fsPath rootSourceFile)
    ++ "')." ++ className.

(** [`${x}`] for [x : string | null]. *)
Definition template_str (x : option string) : string :=
  match x with
  | Some s => s
  | None => "null"
  end.

(** [AssetGodotScene.tsType]. Each call through an instanced scene uses one
    unit of [fuel]; the recursion of the source is unbounded. *)
Fixpoint AssetGodotScene_tsType (fuel : nat) (project : TsGdProjectClass)
    (this : AssetGodotScene) : M string :=
  match fuel with
  | O => out_of_fuel
  | S fuel' =>
      match rootNode this with
      | None => throw TypeError
      | Some root =>
          rootScript <- lift (getScript project this root) ;;
          match rootScript with
          | Some rootScript =>
              match find (fun sf => String.eqb (sf_resPath sf) (sf_resPath rootScript))
                         (sourceFiles project) with
              | None => addError (root_source_file_error rootScript) ;;; ret "any"
              | Some rootSourceFile =>
                  let className := exportedTsClassName rootSourceFile in
                  if negb (truthy_str className) then
                    addError (classname_error rootScript) ;;; ret "any"
                  else
                    ret (import_type rootSourceFile
                           (template_str (exportedTsClassName rootSourceFile)))
              end
          | None =>
              GodotNode_tsType (AssetGodotScene_tsType fuel' project) project this root
          end
      end
  end.

(** [GodotNode.tsType] with [fuel] calls available to the scenes it
    reaches. *)
Definition tsType (fuel : nat) (project : TsGdProjectClass) (scene : AssetGodotScene)
    (this : GodotNode) : M string :=
  GodotNode_tsType (AssetGodotScene_tsType fuel project) project scene this.

(** ** Instancing chains *)

(** [resolves_to project d scene t]: following [d] instancing roots from
    [scene] leads to a scene whose root has a backing script, found among
    the project's source files and exporting a class, and [t] is the import
    of that class. Each root on the way has no declared type, no backing
    script, and is an instance of the next scene. *)
Inductive resolves_to (project : TsGdProjectClass)
    : nat -> AssetGodotScene -> string -> Prop :=
| resolves_script (scene : AssetGodotScene) (root : GodotNode)
    (rootScript rootSourceFile : AssetSourceFile) (className : string) :
    rootNode scene = Some root ->
    getScript project scene root = Ok (Some rootScript) ->
    find (fun sf => String.eqb (sf_resPath sf) (sf_resPath rootScript))
         (sourceFiles project) = Some rootSourceFile ->
    exportedTsClassName rootSourceFile = Some className -> className <> "" ->
    resolves_to project 0 scene (import_type rootSourceFile className)
| resolves_instance (d : nat) (scene next : AssetGodotScene) (root : GodotNode)
    (t : string) :
    rootNode scene = Some root ->
    getScript project scene root = Ok None ->
    truthy_str (_type root) = false -> isInstance root = true ->
    instance project scene root = Ok (Some (InstScene next)) ->
    resolves_to project d next t ->
    resolves_to project (S d) scene t.

(** ** Construction of a scene *)

Section Construction.

(** [TsGdProjectClass.FsPathToResPath], [TsGdProjectClass.ResPathToFsPath]
    and Node's [path.basename] are defined outside this unit. *)
Variable FsPathToResPath : string -> string.
Variable ResPathToFsPath : string -> string.
Variable basename : string -> string -> string.

Definition resource_of_section (resource : ExtResourceSection) : ResourceTemp :=
  {| rt_resPath := ext_path resource;
     rt_fsPath := ResPathToFsPath (ext_path resource);
     rt_id := ext_id resource |}.

(** The constructor of [AssetGodotScene], from the tree
    [parseGodotConfigFile] returned for [fsPath]. *)
Definition AssetGodotScene_new (fsPath : string) (sceneFile : IGodotSceneFile)
    : M AssetGodotScene :=
  let resources :=
    map resource_of_section
        (match ext_resource sceneFile with Some l => l | None => [] end) in
  let nodes :=
    map GodotNode_new (match node sceneFile with Some l => l | None => [] end) in
  ret {| scene_fsPath := fsPath;
         scene_resPath := FsPathToResPath fsPath;
         nodes := nodes;
         resources := resources;
         scene_name := basename fsPath ".tscn";
         rootNode := find (fun node => negb (truthy_str (parent node))) nodes |}.

End Construction.

(** ** Translation of the [this] keyword *)

Module ParseNode.

(** The TypeScript AST ([ts.Node]), as far as the rule of this unit looks
    at it: a [this] expression, or a node of another syntax kind. *)
Inductive Node :=
| ThisExpression
| OtherNode (kind : nat).

(** Modelled from the spec: [ParseState] of [parse_node.ts], which is not
    part of this unit. The snapshot threaded through translation: the
    indentation depth, the bindings in scope and the enclosing context. *)
Record ParseState := mkParseState {
  indent : nat;
  scope : list string;
  enclosing : option Node
}.

(** Modelled from the spec: [ParseNodeType] of [parse_node.ts]. The result
    of translating one node: its text and the bindings it introduces for
    the nodes translated after it. *)
Record ParseNodeType := mkParseNodeType {
  content : string;
  bindings : list string
}.

Record CombineArgs := mkCombineArgs {
  ca_parent : Node;
  ca_nodes : list Node;
  ca_props : ParseState;
  parsedStrings : list string -> string
}.

Section Combine.

(** The dispatcher [parseNode], one rule per node kind. *)
Variable parseNode : Node -> ParseState -> ParseNodeType.

(** Modelled from the spec: [combine] of [parse_node.ts], which is not
    part of this unit. It takes the parent node, the ordered child nodes
    to recurse into, the current ParseState and a template from the
    child texts to the final text; it performs the recursion and applies
    the template, and returns the text with the state updates of the
    children. *)
Definition combine (a : CombineArgs) : ParseNodeType :=
  let parsed := map (fun n => parseNode n (ca_props a)) (ca_nodes a) in
  {| content := parsedStrings a (map content parsed);
     bindings := flat_map bindings parsed |}.

Definition parseThisKeyword (node : Node) (props : ParseState) : ParseNodeType :=
  combine {| ca_parent := node;
             ca_nodes := [];
             ca_props := props;
             parsedStrings := fun _ => "self" |}.

End Combine.

End ParseNode.

(** ** Fixtures *)

Module Fixtures.

Definition ext (n : Z) : option ArgsRef :=
  Some {| args := [n]; identifier := "ExtResource" |}.

Definition mk_node (nm : string) (ty par : option string) (inst scr : option ArgsRef)
    : GodotNode :=
  GodotNode_new
    {| props_section := {| sec_name := nm; sec_type := ty; sec_parent := par;
                           sec_groups := None; sec_instance := inst |};
       props_script := scr |}.

Definition mk_scene (file : string) (ns : list GodotNode) (rs : list ResourceTemp)
    : AssetGodotScene :=
  {| scene_fsPath := "/game/" ++ file ++ ".tscn";
     scene_resPath := "res://" ++ file ++ ".tscn";
     nodes := ns;
     resources := rs;
     scene_name := file;
     rootNode := find (fun n => negb (truthy_str (parent n))) ns |}.

Definition res (i : Z) (file : string) : ResourceTemp :=
  {| rt_resPath := "res://" ++ file; rt_fsPath := "/game/" ++ file; rt_id := i |}.

Definition player_ts : AssetSourceFile :=
  {| sf_resPath := "res://Player.ts";
     sf_fsPath := "/game/Player.ts";
     exportedTsClassName := Some "Player" |}.

(** Scene C: a root with a script of its own. *)
Definition rootC : GodotNode := mk_node "C" (Some "Node2D") None None (ext 1).
Definition sceneC : AssetGodotScene :=
  mk_scene "C" [rootC] [res 1 "Player.ts"].

(** Scene B: its root instances C and declares no script. *)
Definition rootB : GodotNode := mk_node "B" None None (ext 1) None.
Definition sceneB : AssetGodotScene :=
  mk_scene "B" [rootB] [res 1 "C.tscn"].

(** Scene A: its root instances B; it has a typed child, a child that
    instances C, and an override of a node inside that instance. *)
Definition rootA : GodotNode := mk_node "A" None None (ext 1) None.
Definition hud : GodotNode := mk_node "Hud" (Some "Control") (Some ".") None None.
Definition enemy : GodotNode := mk_node "Enemy" None (Some ".") (ext 2) None.
Definition arm : GodotNode := mk_node "Arm" None (Some "Enemy") None None.
Definition sceneA : AssetGodotScene :=
  mk_scene "A" [rootA; hud; enemy; arm]
           [res 1 "B.tscn"; res 2 "C.tscn"].

Definition project : TsGdProjectClass :=
  {| assets := [GodotSceneAsset sceneA; GodotSceneAsset sceneB;
                GodotSceneAsset sceneC; SourceFileAsset player_ts];
     godotScenes := [sceneA; sceneB; sceneC];
     godotGlbs := [];
     sourceFiles := [player_ts] |}.

(** The same scenes in a project from which every other asset is gone. *)
Definition bare_project : TsGdProjectClass :=
  {| assets := []; godotScenes := []; godotGlbs := []; sourceFiles := [] |}.

(** A project that still lists the script as an asset but no longer among
    its source files. *)
Definition stale_project : TsGdProjectClass :=
  {| assets := [GodotSceneAsset sceneC; SourceFileAsset player_ts];
     godotScenes := [sceneC];
     godotGlbs := [];
     sourceFiles := [] |}.

(** A node whose instance reference is [ExtResource( 0 )]. *)
Definition zero : GodotNode := mk_node "Zero" None (Some ".") (ext 0) None.
Definition main : GodotNode := mk_node "Main" (Some "Node2D") None None None.
Definition scene0 : AssetGodotScene :=
  mk_scene "Zero" [main; zero] [res 0 "C.tscn"].

(** A scene file whose resource table lost its entries. *)
Definition broken : AssetGodotScene := mk_scene "Broken" [rootC; enemy] [].


End Fixtures.

(** ** Outcomes relative to the sink *)

(** The discipline of a type query started with the sink [k]: it throws
    with the sink untouched, or returns a non-empty type having appended
    nothing, or returns ["any"] having appended one diagnostic. *)
Definition reports (k : Sink) (o : option (except string * Sink)) : Prop :=
  match o with
  | Some (Ok t, k') =>
      t <> "" /\ (k' = k \/ (t = "any" /\ exists d, k' = (k ++ [d])%list))
  | Some (Throw _, k') => k' = k
  | None => True
  end.

(** [AssetGodotScene.extensions]. *)
Definition extensions : list string := [".tscn"].

(** ** Further fixtures *)

Module Cases.

(** A scene whose root instances the scene itself. *)
Definition loop_root : GodotNode := Fixtures.mk_node "Loop" None None (Fixtures.ext 1) None.
Definition loop : AssetGodotScene :=
  Fixtures.mk_scene "Loop" [loop_root] [Fixtures.res 1 "Loop.tscn"].
Definition loop_project : TsGdProjectClass :=
  {| assets := [GodotSceneAsset loop]; godotScenes := [loop];
     godotGlbs := []; sourceFiles := [] |}.

(** A scene with a node that instances a model. *)
Definition tree_glb : AssetGlb :=
  {| glb_fsPath := "/game/Tree.glb"; glb_tsType := "Spatial" |}.
Definition tree : GodotNode :=
  Fixtures.mk_node "Tree" None (Some ".") (Fixtures.ext 1) None.
Definition forest : AssetGodotScene :=
  Fixtures.mk_scene "Forest" [Fixtures.main; tree] [Fixtures.res 1 "Tree.glb"].
Definition glb_project : TsGdProjectClass :=
  {| assets := [GlbAsset tree_glb]; godotScenes := [];
     godotGlbs := [tree_glb]; sourceFiles := [] |}.

(** A script that exports no class. *)
Definition util_ts : AssetSourceFile :=
  {| sf_resPath := "res://Util.ts"; sf_fsPath := "/game/Util.ts";
     exportedTsClassName := None |}.
Definition sceneU : AssetGodotScene :=
  Fixtures.mk_scene "U" [Fixtures.rootC] [Fixtures.res 1 "Util.ts"].
Definition util_project : TsGdProjectClass :=
  {| assets := [SourceFileAsset util_ts]; godotScenes := [sceneU];
     godotGlbs := []; sourceFiles := [util_ts] |}.

(** A node whose script reference is [ExtResource( 0 )], in a scene whose
    table has that id. *)
Definition zscript : GodotNode :=
  Fixtures.mk_node "Z" (Some "Node") None None (Fixtures.ext 0).
Definition sceneZ : AssetGodotScene :=
  Fixtures.mk_scene "Z" [zscript] [Fixtures.res 0 "Player.ts"].

(** A node whose section reads [type=""]. *)
Definition blank : GodotNode := Fixtures.mk_node "Blank" (Some "") (Some ".") None None.
Definition blank_scene : AssetGodotScene :=
  Fixtures.mk_scene "Blank" [Fixtures.main; blank] [].

(** A node named ["."] directly under the root. *)
Definition dot : GodotNode := Fixtures.mk_node "." (Some "Node") (Some ".") None None.
Definition dots : AssetGodotScene := Fixtures.mk_scene "Dots" [dot] [].

(** A parsed scene file with two resources and three nodes. *)
Definition level_file : IGodotSceneFile :=
  {| ext_resource :=
       Some [ {| ext_path := "res://C.tscn"; ext_type := "PackedScene"; ext_id := 1 |};
              {| ext_path := "res://Player.ts"; ext_type := "Script"; ext_id := 2 |} ];
     node :=
       Some [ {| props_section := {| sec_name := "Level"; sec_type := Some "Node2D";
                                     sec_parent := None; sec_groups := None;
                                     sec_instance := None |};
                 props_script := Fixtures.ext 2 |};
              {| props_section := {| sec_name := "Enemy"; sec_type := None;
                                     sec_parent := Some "."; sec_groups := None;
                                     sec_instance := Fixtures.ext 1 |};
                 props_script := None |};
              {| props_section := {| sec_name := "Arm"; sec_type := None;
                                     sec_parent := Some "Enemy"; sec_groups := None;
                                     sec_instance := None |};
                 props_script := None |} ] |}.

End Cases.

(** ** Basic facts *)

Lemma truthy_str_some (t : string) : t <> "" -> truthy_str (Some t) = true.
Proof. destruct t; [congruence | reflexivity]. Qed.

Lemma truthy_num_some (z : Z) : z <> 0%Z -> truthy_num (Some z) = true.
Proof.
  intros Hz. unfold truthy_num. apply negb_true_iff, Z.eqb_neq, Hz.
Qed.

Lemma strict_eq_opt_true (a : option string) (b : string) :
  strict_eq_opt a b = true <-> a = Some b.
Proof.
  destruct a as [s|]; simpl.
  - rewrite String.eqb_eq. split; congruence.
  - split; discriminate.
Qed.

(** [instanceId] keeps whatever first argument the instance reference has,
    [0] included. *)
Lemma instanceId_first_arg (n : GodotNode) :
  instanceId n = first_arg (sec_instance (section n)).
Proof.
  unfold instanceId.
  destruct (first_arg (sec_instance (section n))) as [z|]; simpl; [|reflexivity].
  destruct (Z.eqb_spec z 0); reflexivity.
Qed.

Lemma isInstance_true_iff (n : GodotNode) :
  isInstance n = true <-> exists i, instanceId n = Some i /\ i <> 0%Z.
Proof.
  unfold isInstance, truthy_num.
  destruct (instanceId n) as [z|].
  - rewrite negb_true_iff, Z.eqb_neq. split.
    + intros Hz. exists z. split; [reflexivity | exact Hz].
    + intros [i [Hi Hz]]. congruence.
  - split; [discriminate | intros [i [Hi _]]; discriminate].
Qed.

Lemma instance_none (project : TsGdProjectClass) (scene : AssetGodotScene) (n : GodotNode) :
  instanceId n = None -> instance project scene n = Ok None.
Proof. intros H. unfold instance. rewrite H. reflexivity. Qed.

Lemma instance_some_id (project : TsGdProjectClass) (scene : AssetGodotScene)
    (n : GodotNode) (a : Instance) :
  instance project scene n = Ok (Some a) -> exists i, instanceId n = Some i.
Proof.
  unfold instance. destruct (instanceId n) as [i|]; [eauto | discriminate].
Qed.


(** [isRoot] and the test [!node.parent] of the root search agree on every
    constructed node. *)
Lemma isRoot_new (props : NodeProps) :
  isRoot (GodotNode_new props) = negb (truthy_str (parent (GodotNode_new props))).
Proof. simpl. destruct (truthy_str (sec_parent (props_section props))); reflexivity. Qed.

(** ** Overrides and instances *)

(** The general fact behind the zero-id case: [isInstance] does not see an
    instance reference whose id is [0]. *)
Lemma isInstance_zero (n : GodotNode) :
  instanceId n = Some 0%Z -> isInstance n = false.
Proof. intros H. unfold isInstance. rewrite H. reflexivity. Qed.

(** C1, as stated, fails: the node [Enemy] of scene A has no declared type
    and, in a project from which the instanced scene is gone, [instance]
    returns nothing for it; yet it is not an instance override. *)
Lemma isInstanceOverride_instance_nothing_counterexample :
  ~ (isInstanceOverride Fixtures.enemy = true <->
     _type Fixtures.enemy = None /\
     instance Fixtures.bare_project Fixtures.sceneA Fixtures.enemy = Ok None).
Proof.
  intros [_ H].
  assert (Hov : isInstanceOverride Fixtures.enemy = true)
    by (apply H; split; reflexivity).
  vm_compute in Hov. discriminate.
Qed.

(** C1 (amended): for a node whose instance reference, if any, has a non-zero
    id, [isInstanceOverride] is true iff the declared type is absent or empty
    and the node carries no instance id. Whether the id resolves to an asset
    does not matter. In particular: type present gives false; type absent
    with an instance that resolves gives false; type absent with no instance
    reference gives true. *)
Theorem isInstanceOverride_iff (n : GodotNode) :
  instanceId n <> Some 0%Z ->
  (isInstanceOverride n = true <->
     truthy_str (_type n) = false /\ instanceId n = None)
  /\ (truthy_str (_type n) = true -> isInstanceOverride n = false)
  /\ (forall project scene a,
        instance project scene n = Ok (Some a) -> isInstanceOverride n = false)
  /\ (_type n = None -> instanceId n = None -> isInstanceOverride n = true).
Proof.
  intros Hz. unfold isInstanceOverride, isInstance.
  split; [split|split; [|split]].
  - intros H. apply andb_true_iff in H. destruct H as [Ht Hi].
    apply negb_true_iff in Ht. apply negb_true_iff in Hi. split; [exact Ht|].
    destruct (instanceId n) as [z|]; [|reflexivity].
    simpl in Hi. apply negb_false_iff, Z.eqb_eq in Hi. subst z. congruence.
  - intros [Ht Hi]. rewrite Ht, Hi. reflexivity.
  - intros Ht. rewrite Ht. reflexivity.
  - intros project scene a Ha.
    destruct (instance_some_id _ _ _ _ Ha) as [i Hi].
    rewrite Hi. rewrite truthy_num_some by congruence.
    apply andb_false_r.
  - intros Ht Hi. rewrite Ht, Hi. reflexivity.
Qed.

Lemma isInstanceOverride_iff_witness :
  (isInstanceOverride Fixtures.arm = true <->
     truthy_str (_type Fixtures.arm) = false /\ instanceId Fixtures.arm = None)
  /\ isInstanceOverride Fixtures.hud = false
  /\ isInstanceOverride Fixtures.enemy = false
  /\ isInstanceOverride Fixtures.arm = true.
Proof.
  split; [|split; [|split]].
  - apply (isInstanceOverride_iff Fixtures.arm). vm_compute. discriminate.
  - apply (isInstanceOverride_iff Fixtures.hud); [vm_compute; discriminate | reflexivity].
  - refine (proj1 (proj2 (proj2 (isInstanceOverride_iff Fixtures.enemy _)))
              Fixtures.project Fixtures.sceneA (InstScene Fixtures.sceneC) _).
    + vm_compute. discriminate.
    + reflexivity.
  - apply (isInstanceOverride_iff Fixtures.arm);
      [vm_compute; discriminate | reflexivity | reflexivity].
Defined.

(** C2: a node whose instance reference is [ExtResource( 0 )] has instance
    id [0] and [instance] resolves it like any other id, but [isInstance]
    answers false and [isInstanceOverride] answers true, as for a node with
    no instance reference at all. *)
Theorem instance_id_zero_misclassified :
  instanceId Fixtures.zero = Some 0%Z
  /\ instance Fixtures.project Fixtures.scene0 Fixtures.zero
     = Ok (Some (InstScene Fixtures.sceneC))
  /\ isInstance Fixtures.zero = false
  /\ isInstanceOverride Fixtures.zero = true.
Proof. repeat split. Qed.

(** ** Children *)

(** C8: [children] of a node is the node list of the owning scene, in
    order, restricted to the nodes whose parent is the node's scene path
    and that are not instance overrides; so no instance override is ever a
    child of any node. *)
Theorem children_exclude_overrides (scene : AssetGodotScene) (n : GodotNode) :
  children scene n
  = filter (fun m => negb (isInstanceOverride m))
           (filter (fun m => strict_eq_opt (parent m) (scenePath n)) (nodes scene))
  /\ (forall m, In m (children scene n) <->
                In m (nodes scene) /\ parent m = Some (scenePath n)
                /\ isInstanceOverride m = false)
  /\ (forall n' m, In m (children scene n') -> isInstanceOverride m <> true).
Proof.
  split; [|split].
  - unfold children. induction (nodes scene) as [|a l IH]; simpl; [reflexivity|].
    destruct (strict_eq_opt (parent a) (scenePath n)); simpl.
    + destruct (isInstanceOverride a); simpl; [exact IH | f_equal; exact IH].
    + exact IH.
  - intros m. unfold children. rewrite filter_In, andb_true_iff.
    rewrite strict_eq_opt_true, negb_true_iff. tauto.
  - intros n' m Hin. unfold children in Hin.
    apply filter_In in Hin. destruct Hin as [_ H].
    apply andb_true_iff in H. destruct H as [_ H].
    apply negb_true_iff in H. congruence.
Qed.

(** ** The type of a node *)

Lemma bind_addError_ret {A} (e : TsGdError) (a : A) (k : Sink) :
  (addError e ;;; ret a) k = Some (Ok a, (k ++ [e])%list).
Proof. reflexivity. Qed.

Lemma tsType_declared (rec : AssetGodotScene -> M string) (project : TsGdProjectClass)
    (scene : AssetGodotScene) (n : GodotNode) (t : string) :
  _type n = Some t -> t <> "" -> GodotNode_tsType rec project scene n = ret t.
Proof.
  intros Ht Hne. unfold GodotNode_tsType. rewrite Ht.
  rewrite (truthy_str_some t Hne). reflexivity.
Qed.

Lemma tsType_override (rec : AssetGodotScene -> M string) (project : TsGdProjectClass)
    (scene : AssetGodotScene) (n : GodotNode) :
  isInstanceOverride n = true ->
  GodotNode_tsType rec project scene n = (addError (override_error n) ;;; ret "any").
Proof.
  intros Hov. unfold GodotNode_tsType. rewrite Hov.
  unfold isInstanceOverride in Hov. apply andb_true_iff in Hov.
  destruct Hov as [Ht _]. apply negb_true_iff in Ht.
  destruct (_type n) as [t|]; [|reflexivity].
  rewrite Ht. reflexivity.
Qed.

(** C9, as stated, fails for a declared type that is present but empty: the
    node [Blank] has [type=""], and its type is not that declared type but
    ["any"], with the override diagnostic appended. *)
Lemma tsType_empty_declared_counterexample :
  _type Cases.blank = Some ""
  /\ tsType 1 Fixtures.project Cases.blank_scene Cases.blank []
     = Some (Ok "any", [override_error Cases.blank])
  /\ ~ (forall t, _type Cases.blank = Some t ->
         tsType 1 Fixtures.project Cases.blank_scene Cases.blank []
         = Some (Ok t, [])).
Proof.
  split; [reflexivity|]. split; [reflexivity|].
  intros H. specialize (H "" eq_refl). vm_compute in H. discriminate.
Qed.

(** C9 (amended): asking the type of an instance override appends the internal-bug
    diagnostic to the sink and returns ["any"], without throwing; a node with
    a (non-empty) declared type has that type, and the sink is untouched. *)
Theorem tsType_override_or_declared (fuel : nat) (project : TsGdProjectClass)
    (scene : AssetGodotScene) (n : GodotNode) (k : Sink) :
  (isInstanceOverride n = true ->
   tsType fuel project scene n k = Some (Ok "any", (k ++ [override_error n])%list))
  /\ (forall t, _type n = Some t -> t <> "" ->
      tsType fuel project scene n k = Some (Ok t, k)).
Proof.
  split.
  - intros Hov. unfold tsType. rewrite (tsType_override _ _ _ _ Hov).
    apply bind_addError_ret.
  - intros t Ht Hne. unfold tsType. rewrite (tsType_declared _ _ _ _ t Ht Hne).
    reflexivity.
Qed.

Lemma tsType_override_or_declared_witness :
  tsType 0 Fixtures.project Fixtures.sceneA Fixtures.arm []
  = Some (Ok "any", [override_error Fixtures.arm])
  /\ tsType 0 Fixtures.project Fixtures.sceneA Fixtures.hud []
     = Some (Ok "Control", []).
Proof.
  split.
  - apply (tsType_override_or_declared 0 Fixtures.project Fixtures.sceneA Fixtures.arm []).
    reflexivity.
  - apply (tsType_override_or_declared 0 Fixtures.project Fixtures.sceneA Fixtures.hud []);
      [reflexivity | discriminate].
Defined.

(** ** The [this] keyword *)

(** C10: whatever the dispatcher and the ParseState are, a [this]
    expression translates to exactly ["self"], and introduces nothing. *)
Theorem parseThisKeyword_self
    (parseNode : ParseNode.Node -> ParseNode.ParseState -> ParseNode.ParseNodeType)
    (node : ParseNode.Node) (props : ParseNode.ParseState) :
  ParseNode.content (ParseNode.parseThisKeyword parseNode node props) = "self"
  /\ ParseNode.parseThisKeyword parseNode node props
     = {| ParseNode.content := "self"; ParseNode.bindings := [] |}
  /\ (forall props',
        ParseNode.parseThisKeyword parseNode node props'
        = ParseNode.parseThisKeyword parseNode node props).
Proof. repeat split. Qed.

(** ** Dangling ids and missing assets *)

Lemma instance_dangling (project : TsGdProjectClass) (scene : AssetGodotScene)
    (n : GodotNode) (iid : Z) :
  instanceId n = Some iid ->
  find (fun res => (rt_id res =? iid)%Z) (resources scene) = None ->
  instance project scene n = Throw (cant_find_scene iid (scenePath n)).
Proof. intros Hi Hf. unfold instance. rewrite Hi, Hf. reflexivity. Qed.

Lemma instance_missing_asset (project : TsGdProjectClass) (scene : AssetGodotScene)
    (n : GodotNode) (iid : Z) (res : ResourceTemp) :
  instanceId n = Some iid ->
  find (fun res => (rt_id res =? iid)%Z) (resources scene) = Some res ->
  find (fun s => String.eqb (scene_fsPath s) (rt_fsPath res)) (godotScenes project) = None ->
  find (fun g => String.eqb (glb_fsPath g) (rt_fsPath res)) (godotGlbs project) = None ->
  instance project scene n = Ok None.
Proof. intros Hi Hf Hs Hg. unfold instance. rewrite Hi, Hf, Hs, Hg. reflexivity. Qed.

(** A node without a declared type that is not an override takes its type
    from what [instance] returns. *)
Lemma tsType_through_instance (rec : AssetGodotScene -> M string)
    (project : TsGdProjectClass) (scene : AssetGodotScene) (n : GodotNode) :
  truthy_str (_type n) = false -> isInstance n = true ->
  GodotNode_tsType rec project scene n
  = (inst <- lift (instance project scene n) ;;
     instancedSceneType <-
       match inst with
       | Some (InstScene s) => t <- rec s ;; ret (Some t)
       | Some (InstGlb g) => ret (Some (glb_tsType g))
       | None => ret None
       end ;;
     match instancedSceneType with
     | Some t => if truthy_str (Some t) then ret t
                 else addError (missing_instance_error scene n) ;;; ret "any"
     | None => addError (missing_instance_error scene n) ;;; ret "any"
     end).
Proof.
  intros Ht Hi. unfold GodotNode_tsType, isInstanceOverride.
  rewrite Hi, andb_false_r.
  destruct (_type n) as [t|]; [|reflexivity].
  rewrite Ht. reflexivity.
Qed.

Lemma getScript_own (project : TsGdProjectClass) (scene : AssetGodotScene)
    (n : GodotNode) (sid : Z) :
  scriptExtResourceId n = Some sid -> sid <> 0%Z ->
  getScript project scene n
  = match find (fun obj => (rt_id obj =? sid)%Z) (resources scene) with
    | None => Throw (expected_resource sid (scene_fsPath scene))
    | Some externalResource =>
        Ok (find_source_file (rt_resPath externalResource) (assets project))
    end.
Proof.
  intros Hs Hz. unfold getScript. rewrite Hs.
  rewrite (truthy_num_some sid Hz). reflexivity.
Qed.

(** A node without script of its own that instances a scene reads the
    script id of that scene's root and looks it up in that scene's table. *)
Lemma getScript_inherited (project : TsGdProjectClass) (scene inst : AssetGodotScene)
    (n root : GodotNode) :
  truthy_num (scriptExtResourceId n) = false ->
  instance project scene n = Ok (Some (InstScene inst)) ->
  rootNode inst = Some root ->
  getScript project scene n
  = match scriptExtResourceId root with
    | None => Ok None
    | Some sid =>
        if negb (truthy_num (Some sid)) then Ok None
        else
          match find (fun obj => (rt_id obj =? sid)%Z) (resources inst) with
          | None => Throw (expected_resource sid (scene_fsPath scene))
          | Some externalResource =>
              Ok (find_source_file (rt_resPath externalResource) (assets project))
          end
    end.
Proof.
  intros Hs Hi Hr. unfold getScript. rewrite Hs, Hi, Hr. reflexivity.
Qed.

(** C3, as stated, fails for script ids: the root of scene C declares
    script id 1, the id is in the scene's resource table, and the source
    file is missing from the project; [getScript] returns nothing and the
    scene's type is the declared type of the root, with an empty sink: no
    diagnostic and no ["any"]. *)
Lemma script_missing_asset_counterexample :
  scriptExtResourceId Fixtures.rootC = Some 1%Z
  /\ find (fun obj => (rt_id obj =? 1)%Z) (resources Fixtures.sceneC)
     = Some (Fixtures.res 1 "Player.ts")
  /\ find_source_file "res://Player.ts" (assets Fixtures.bare_project) = None
  /\ getScript Fixtures.bare_project Fixtures.sceneC Fixtures.rootC = Ok None
  /\ AssetGodotScene_tsType 1 Fixtures.bare_project Fixtures.sceneC []
     = Some (Ok "Node2D", [])
  /\ ~ (exists d k,
          AssetGodotScene_tsType 1 Fixtures.bare_project Fixtures.sceneC []
          = Some (Ok "any", d :: k)).
Proof.
  repeat (split; [reflexivity|]).
  intros [d [k H]]. vm_compute in H. discriminate.
Qed.

(** C3 (amended): an instance id that is not in the resource table of the
    owning scene makes [instance] throw, and with it [tsType] of a node that
    has no declared type; a non-zero script id of the node that is not in the
    table makes [getScript] throw. When the instance id is in the table but
    no scene or model of the project has its path, [instance] returns
    nothing and [tsType] of a node without declared type appends one
    diagnostic and returns ["any"]. When the script id is in the table but
    no source file of the project has its path, [getScript] returns nothing:
    it neither throws nor reports. *)
Theorem dangling_throws_missing_degrades (fuel : nat) (project : TsGdProjectClass)
    (scene : AssetGodotScene) (n : GodotNode) (k : Sink) :
  (forall iid,
      instanceId n = Some iid ->
      find (fun res => (rt_id res =? iid)%Z) (resources scene) = None ->
      instance project scene n = Throw (cant_find_scene iid (scenePath n))
      /\ (truthy_str (_type n) = false -> isInstance n = true ->
          tsType fuel project scene n k
          = Some (Throw (cant_find_scene iid (scenePath n)), k)))
  /\ (forall sid,
      scriptExtResourceId n = Some sid -> sid <> 0%Z ->
      find (fun obj => (rt_id obj =? sid)%Z) (resources scene) = None ->
      getScript project scene n = Throw (expected_resource sid (scene_fsPath scene)))
  /\ (forall iid res,
      instanceId n = Some iid ->
      find (fun res => (rt_id res =? iid)%Z) (resources scene) = Some res ->
      find (fun s => String.eqb (scene_fsPath s) (rt_fsPath res)) (godotScenes project) = None ->
      find (fun g => String.eqb (glb_fsPath g) (rt_fsPath res)) (godotGlbs project) = None ->
      instance project scene n = Ok None
      /\ (truthy_str (_type n) = false ->
          tsType fuel project scene n k
          = Some (Ok "any",
                  (k ++ [if isInstance n then missing_instance_error scene n
                         else override_error n])%list)))
  /\ (forall sid externalResource,
      scriptExtResourceId n = Some sid -> sid <> 0%Z ->
      find (fun obj => (rt_id obj =? sid)%Z) (resources scene) = Some externalResource ->
      find_source_file (rt_resPath externalResource) (assets project) = None ->
      getScript project scene n = Ok None).
Proof.
  split; [|split; [|split]].
  - intros iid Hi Hf. split.
    + apply (instance_dangling project scene n iid Hi Hf).
    + intros Ht Hin. unfold tsType.
      rewrite (tsType_through_instance _ _ _ _ Ht Hin).
      unfold bind. rewrite (instance_dangling project scene n iid Hi Hf).
      reflexivity.
  - intros sid Hs Hz Hf. rewrite (getScript_own _ _ _ _ Hs Hz), Hf.
    reflexivity.
  - intros iid res Hi Hf Hs Hg.
    pose proof (instance_missing_asset project scene n iid res Hi Hf Hs Hg) as Hnone.
    split; [exact Hnone|].
    intros Ht. unfold tsType. destruct (isInstance n) eqn:Hin.
    + rewrite (tsType_through_instance _ _ _ _ Ht Hin).
      unfold bind. rewrite Hnone. reflexivity.
    + assert (Hov : isInstanceOverride n = true)
        by (unfold isInstanceOverride; rewrite Ht, Hin; reflexivity).
      rewrite (tsType_override _ _ _ _ Hov). reflexivity.
  - intros sid ext Hs Hz Hf Hsf.
    rewrite (getScript_own _ _ _ _ Hs Hz), Hf, Hsf. reflexivity.
Qed.

Lemma dangling_throws_missing_degrades_witness :
  (instance Fixtures.project Fixtures.broken Fixtures.enemy
   = Throw (cant_find_scene 2 "Enemy")
   /\ tsType 1 Fixtures.project Fixtures.broken Fixtures.enemy []
      = Some (Throw (cant_find_scene 2 "Enemy"), []))
  /\ getScript Fixtures.project Fixtures.broken Fixtures.rootC
     = Throw (expected_resource 1 "/game/Broken.tscn")
  /\ (instance Fixtures.bare_project Fixtures.sceneA Fixtures.enemy = Ok None
      /\ tsType 1 Fixtures.bare_project Fixtures.sceneA Fixtures.enemy []
         = Some (Ok "any", [missing_instance_error Fixtures.sceneA Fixtures.enemy]))
  /\ getScript Fixtures.bare_project Fixtures.sceneC Fixtures.rootC = Ok None.
Proof.
  split; [|split; [|split]].
  - destruct (proj1 (dangling_throws_missing_degrades
                       1 Fixtures.project Fixtures.broken Fixtures.enemy [])
                2%Z eq_refl eq_refl) as [Hthrow Hty].
    split; [exact Hthrow | apply Hty; reflexivity].
  - apply (proj1 (proj2 (dangling_throws_missing_degrades
                           1 Fixtures.project Fixtures.broken Fixtures.rootC []))
             1%Z); [reflexivity | discriminate | reflexivity].
  - destruct (proj1 (proj2 (proj2 (dangling_throws_missing_degrades
                       1 Fixtures.bare_project Fixtures.sceneA Fixtures.enemy [])))
                2%Z (Fixtures.res 2 "C.tscn") eq_refl eq_refl eq_refl eq_refl)
      as [Hnone Hty].
    split; [exact Hnone | apply Hty; reflexivity].
  - apply (proj2 (proj2 (proj2 (dangling_throws_missing_degrades
                           1 Fixtures.bare_project Fixtures.sceneC Fixtures.rootC [])))
             1%Z (Fixtures.res 1 "Player.ts"));
      [reflexivity | discriminate | reflexivity | reflexivity].
Defined.

(** ** The root of a scene *)




(** ** The type of a scene *)

Lemma scene_tsType_no_script (fuel : nat) (project : TsGdProjectClass)
    (scene : AssetGodotScene) (root : GodotNode) :
  rootNode scene = Some root ->
  getScript project scene root = Ok None ->
  AssetGodotScene_tsType (S fuel) project scene = tsType fuel project scene root.
Proof.
  intros Hr Hs. simpl. rewrite Hr, Hs. reflexivity.
Qed.

Lemma scene_tsType_script (fuel : nat) (project : TsGdProjectClass)
    (scene : AssetGodotScene) (root : GodotNode)
    (rootScript rootSourceFile : AssetSourceFile) (className : string) (k : Sink) :
  rootNode scene = Some root ->
  getScript project scene root = Ok (Some rootScript) ->
  find (fun sf => String.eqb (sf_resPath sf) (sf_resPath rootScript)) (sourceFiles project)
  = Some rootSourceFile ->
  exportedTsClassName rootSourceFile = Some className -> className <> "" ->
  AssetGodotScene_tsType (S fuel) project scene k
  = Some (Ok (import_type rootSourceFile className), k).
Proof.
  intros Hr Hs Hf Hc Hne. simpl. rewrite Hr, Hs. simpl.
  unfold bind, ret. simpl. rewrite Hf, Hc.
  rewrite (truthy_str_some className Hne). reflexivity.
Qed.

(** C5, as stated, fails: the root of scene [Zero] has the declared type
    [Node2D] and no backing script; the type of the scene is [Node2D] and
    the sink stays empty, so no diagnostic is reported. *)
Lemma scene_tsType_no_script_counterexample :
  rootNode Fixtures.scene0 = Some Fixtures.main
  /\ getScript Fixtures.project Fixtures.scene0 Fixtures.main = Ok None
  /\ AssetGodotScene_tsType 1 Fixtures.project Fixtures.scene0 []
     = Some (Ok "Node2D", [])
  /\ ~ (exists r d k,
          AssetGodotScene_tsType 1 Fixtures.project Fixtures.scene0 []
          = Some (r, d :: k)).
Proof.
  repeat (split; [reflexivity|]).
  intros [r [d [k H]]]. vm_compute in H. discriminate.
Qed.

(** C5 (amended): when the root node of a scene has no backing script, the
    scene's [tsType] is exactly the root node's [tsType], result and
    diagnostics alike, and adds no diagnostic of its own. When the backing
    script is found, is among the project's source files and exports a class,
    the result is [import('<path without .ts>').<class>] and the sink is
    untouched; when it is found but is not among the project's source files,
    one diagnostic naming the script is appended and the result is ["any"]. *)
Theorem scene_tsType_root (fuel : nat) (project : TsGdProjectClass)
    (scene : AssetGodotScene) (root : GodotNode) (k : Sink) :
  rootNode scene = Some root ->
  (getScript project scene root = Ok None ->
   AssetGodotScene_tsType (S fuel) project scene k = tsType fuel project scene root k)
  /\ (forall rootScript rootSourceFile className,
      getScript project scene root = Ok (Some rootScript) ->
      find (fun sf => String.eqb (sf_resPath sf) (sf_resPath rootScript))
           (sourceFiles project) = Some rootSourceFile ->
      exportedTsClassName rootSourceFile = Some className -> className <> "" ->
      AssetGodotScene_tsType (S fuel) project scene k
      = Some (Ok ("import('" ++ slice_0_neg 3 (sf_fsPath rootSourceFile) ++ "')."
                  ++ className), k))
  /\ (forall rootScript,
      getScript project scene root = Ok (Some rootScript) ->
      find (fun sf => String.eqb (sf_resPath sf) (sf_resPath rootScript))
           (sourceFiles project) = None ->
      AssetGodotScene_tsType (S fuel) project scene k
      = Some (Ok "any", (k ++ [root_source_file_error rootScript])%list)).
Proof.
  intros Hr. split; [|split].
  - intros Hs. rewrite (scene_tsType_no_script fuel _ _ _ Hr Hs). reflexivity.
  - intros rs sf c Hs Hf Hc Hne.
    apply (scene_tsType_script fuel _ _ _ rs sf c k Hr Hs Hf Hc Hne).
  - intros rs Hs Hf. simpl. rewrite Hr, Hs. simpl.
    unfold bind, ret. simpl. rewrite Hf. reflexivity.
Qed.

Lemma scene_tsType_root_witness :
  AssetGodotScene_tsType 1 Fixtures.project Fixtures.scene0 []
  = tsType 0 Fixtures.project Fixtures.scene0 Fixtures.main []
  /\ AssetGodotScene_tsType 1 Fixtures.project Fixtures.sceneC []
     = Some (Ok "import('/game/Player').Player", [])
  /\ AssetGodotScene_tsType 1 Fixtures.stale_project Fixtures.sceneC []
     = Some (Ok "any", [root_source_file_error Fixtures.player_ts]).
Proof.
  split; [|split].
  - apply (scene_tsType_root 0 Fixtures.project Fixtures.scene0 Fixtures.main []);
      reflexivity.
  - apply (proj1 (proj2 (scene_tsType_root 0 Fixtures.project Fixtures.sceneC
                           Fixtures.rootC [] eq_refl))
             Fixtures.player_ts Fixtures.player_ts "Player");
      [reflexivity | reflexivity | reflexivity | discriminate].
  - apply (proj2 (proj2 (scene_tsType_root 0 Fixtures.stale_project Fixtures.sceneC
                           Fixtures.rootC [] eq_refl))
             Fixtures.player_ts); reflexivity.
Defined.

(** ** Instancing *)

Lemma import_type_truthy (sf : AssetSourceFile) (c : string) :
  truthy_str (Some (import_type sf c)) = true.
Proof. reflexivity. Qed.

(** A node without declared type that instances a scene has the type of
    that scene, when the scene has one. *)
Lemma tsType_instanced_scene (rec : AssetGodotScene -> M string)
    (project : TsGdProjectClass) (scene inst : AssetGodotScene) (n : GodotNode)
    (t : string) (k k' : Sink) :
  truthy_str (_type n) = false -> isInstance n = true ->
  instance project scene n = Ok (Some (InstScene inst)) ->
  rec inst k = Some (Ok t, k') -> truthy_str (Some t) = true ->
  GodotNode_tsType rec project scene n k = Some (Ok t, k').
Proof.
  intros Ht Hi Hinst Hrec Htruthy.
  rewrite (tsType_through_instance _ _ _ _ Ht Hi), Hinst.
  cbv [lift bind ret]. rewrite Hrec, Htruthy. reflexivity.
Qed.

(** Instancing chains of any depth resolve, given fuel for every scene on
    the way, and report nothing. *)
Lemma resolves_to_tsType (project : TsGdProjectClass) (d : nat)
    (scene : AssetGodotScene) (t : string) :
  resolves_to project d scene t ->
  truthy_str (Some t) = true
  /\ forall fuel k, d < fuel ->
       AssetGodotScene_tsType fuel project scene k = Some (Ok t, k).
Proof.
  induction 1 as [scene root rs sf c Hr Hs Hf Hc Hne
                 | d scene next root t Hr Hs Ht Hi Hinst Hnext [IHt IH]].
  - split; [apply import_type_truthy|].
    intros [|fuel] k Hlt; [lia|].
    apply (scene_tsType_script fuel _ _ _ rs sf c k Hr Hs Hf Hc Hne).
  - split; [exact IHt|].
    intros [|fuel] k Hlt; [lia|].
    rewrite (scene_tsType_no_script fuel _ _ _ Hr Hs). unfold tsType.
    apply (tsType_instanced_scene _ _ _ next _ _ _ _ Ht Hi Hinst); [|exact IHt].
    apply IH. lia.
Qed.

(** C6: scene A's root has no declared type and instances scene B; B's root
    declares no script and instances scene C; C's root declares a script
    that resolves to a source file of the project exporting a class. Then,
    given fuel for one scene call or more, the type of A's root is the
    import of that class from C's script, and nothing is reported. *)
Theorem tsType_transitive (fuel : nat) (project : TsGdProjectClass)
    (A B C : AssetGodotScene) (rootA rootB rootC : GodotNode)
    (sid : Z) (script rootSourceFile : AssetSourceFile) (className : string)
    (k : Sink) :
  rootNode A = Some rootA -> truthy_str (_type rootA) = false ->
  isInstance rootA = true ->
  instance project A rootA = Ok (Some (InstScene B)) ->
  rootNode B = Some rootB -> truthy_num (scriptExtResourceId rootB) = false ->
  instance project B rootB = Ok (Some (InstScene C)) ->
  rootNode C = Some rootC ->
  scriptExtResourceId rootC = Some sid -> sid <> 0%Z ->
  getScript project C rootC = Ok (Some script) ->
  find (fun sf => String.eqb (sf_resPath sf) (sf_resPath script)) (sourceFiles project)
  = Some rootSourceFile ->
  exportedTsClassName rootSourceFile = Some className -> className <> "" ->
  tsType (S fuel) project A rootA k
  = Some (Ok (import_type rootSourceFile className), k)
  /\ AssetGodotScene_tsType (S fuel) project C k
     = Some (Ok (import_type rootSourceFile className), k).
Proof.
  intros HrA HtA HiA HinstA HrB HsB HinstB HrC HsC Hz HscriptC Hf Hc Hne.
  assert (HscriptB : getScript project B rootB = Ok (Some script)).
  { rewrite (getScript_own _ _ _ _ HsC Hz) in HscriptC.
    rewrite (getScript_inherited _ _ _ _ _ HsB HinstB HrC), HsC.
    rewrite (truthy_num_some sid Hz). simpl.
    destruct (find (fun obj => (rt_id obj =? sid)%Z) (resources C));
      [exact HscriptC | discriminate]. }
  split.
  - unfold tsType.
    apply (tsType_instanced_scene _ _ _ B _ _ _ _ HtA HiA HinstA);
      [|apply import_type_truthy].
    apply (scene_tsType_script fuel _ _ _ _ _ _ k HrB HscriptB Hf Hc Hne).
  - apply (scene_tsType_script fuel _ _ _ _ _ _ k HrC HscriptC Hf Hc Hne).
Qed.

Lemma tsType_transitive_witness :
  tsType 1 Fixtures.project Fixtures.sceneA Fixtures.rootA []
  = Some (Ok "import('/game/Player').Player", [])
  /\ AssetGodotScene_tsType 1 Fixtures.project Fixtures.sceneC []
     = Some (Ok "import('/game/Player').Player", []).
Proof.
  apply (tsType_transitive 0 Fixtures.project
           Fixtures.sceneA Fixtures.sceneB Fixtures.sceneC
           Fixtures.rootA Fixtures.rootB Fixtures.rootC
           1%Z Fixtures.player_ts Fixtures.player_ts "Player" []);
    try reflexivity; discriminate.
Defined.

(** ** The backing script of an instancing node *)

(** C7, as stated, fails: the root of scene A declares no script and
    instances scene B, whose root declares none either and instances C.
    [getScript] finds C's script for B's root but nothing for A's root. *)
Lemma getScript_inherits_counterexample :
  scriptExtResourceId Fixtures.rootA = None
  /\ instance Fixtures.project Fixtures.sceneA Fixtures.rootA
     = Ok (Some (InstScene Fixtures.sceneB))
  /\ rootNode Fixtures.sceneB = Some Fixtures.rootB
  /\ getScript Fixtures.project Fixtures.sceneA Fixtures.rootA = Ok None
  /\ getScript Fixtures.project Fixtures.sceneB Fixtures.rootB
     = Ok (Some Fixtures.player_ts)
  /\ getScript Fixtures.project Fixtures.sceneA Fixtures.rootA
     <> getScript Fixtures.project Fixtures.sceneB Fixtures.rootB.
Proof.
  repeat (split; [reflexivity|]).
  vm_compute. discriminate.
Qed.

(** C7 (amended): let N declare no script of its own and instance a scene
    whose root is R. When R declares a script id of its own that is in its
    scene's resource table, [getScript] of N equals [getScript] of R, the
    source file the table entry names. When R declares no script of its own,
    [getScript] of N is nothing, whatever R itself instances. *)
Theorem getScript_inherits_root_script (project : TsGdProjectClass)
    (scene inst : AssetGodotScene) (n root : GodotNode) :
  truthy_num (scriptExtResourceId n) = false ->
  instance project scene n = Ok (Some (InstScene inst)) ->
  rootNode inst = Some root ->
  (forall sid externalResource,
      scriptExtResourceId root = Some sid -> sid <> 0%Z ->
      find (fun obj => (rt_id obj =? sid)%Z) (resources inst) = Some externalResource ->
      getScript project scene n = getScript project inst root
      /\ getScript project scene n
         = Ok (find_source_file (rt_resPath externalResource) (assets project)))
  /\ (truthy_num (scriptExtResourceId root) = false ->
      getScript project scene n = Ok None).
Proof.
  intros Hs Hi Hr.
  rewrite (getScript_inherited _ _ _ _ _ Hs Hi Hr).
  split.
  - intros sid ext Hsid Hz Hf.
    rewrite (getScript_own _ _ _ _ Hsid Hz), Hsid, Hf.
    rewrite (truthy_num_some sid Hz). split; reflexivity.
  - intros Hroot. destruct (scriptExtResourceId root) as [sid|]; [|reflexivity].
    rewrite Hroot. reflexivity.
Qed.

Lemma getScript_inherits_root_script_witness :
  (getScript Fixtures.project Fixtures.sceneA Fixtures.enemy
   = getScript Fixtures.project Fixtures.sceneC Fixtures.rootC
   /\ getScript Fixtures.project Fixtures.sceneA Fixtures.enemy
      = Ok (Some Fixtures.player_ts))
  /\ getScript Fixtures.project Fixtures.sceneA Fixtures.rootA = Ok None.
Proof.
  split.
  - apply (proj1 (getScript_inherits_root_script Fixtures.project
                    Fixtures.sceneA Fixtures.sceneC Fixtures.enemy Fixtures.rootC
                    eq_refl eq_refl eq_refl)
             1%Z (Fixtures.res 1 "Player.ts"));
      [reflexivity | discriminate | reflexivity].
  - apply (proj2 (getScript_inherits_root_script Fixtures.project
                    Fixtures.sceneA Fixtures.sceneB Fixtures.rootA Fixtures.rootB
                    eq_refl eq_refl eq_refl)).
    reflexivity.
Defined.

(** ** Paths and children *)

Lemma length_append (a b : string) :
  String.length (a ++ b) = String.length a + String.length b.
Proof. induction a as [|c a IH]; simpl; [reflexivity | rewrite IH; reflexivity]. Qed.

Lemma append_not_self (p q : string) : q <> "" -> p ++ q <> p.
Proof.
  intros Hq Heq. apply (f_equal String.length) in Heq.
  rewrite length_append in Heq. destruct q; [congruence | simpl in Heq; lia].
Qed.

Lemma scenePath_root (n : GodotNode) :
  truthy_str (parent n) = false -> scenePath n = ".".
Proof.
  unfold scenePath. destruct (parent n) as [p|]; [|reflexivity].
  intros H. rewrite H. reflexivity.
Qed.

Lemma scenePath_child (n : GodotNode) (p : string) :
  parent n = Some p -> p <> "" ->
  scenePath n = if String.eqb p "." then name n else p ++ "/" ++ name n.
Proof.
  intros Hp Hne. unfold scenePath. rewrite Hp, (truthy_str_some p Hne). reflexivity.
Qed.

Lemma children_In (scene : AssetGodotScene) (n m : GodotNode) :
  In m (children scene n) <->
  In m (nodes scene) /\ parent m = Some (scenePath n) /\ isInstanceOverride m = false.
Proof.
  unfold children. rewrite filter_In, andb_true_iff.
  rewrite strict_eq_opt_true, negb_true_iff. tauto.
Qed.

(** X1: the path of a child is the path of its parent joined with the
    child's name by a slash, and just the name under the root. *)
Theorem children_scenePath (scene : AssetGodotScene) (n m : GodotNode) :
  In m (children scene n) -> scenePath n <> "" ->
  scenePath m
  = if String.eqb (scenePath n) "." then name m else scenePath n ++ "/" ++ name m.
Proof.
  intros Hin Hne.
  apply children_In in Hin. destruct Hin as [_ [Hp _]].
  apply (scenePath_child m _ Hp Hne).
Qed.

Lemma children_scenePath_witness :
  scenePath Fixtures.enemy = "Enemy"
  /\ (In Fixtures.arm (children Fixtures.sceneA Fixtures.enemy) -> False).
Proof.
  split.
  - apply (children_scenePath Fixtures.sceneA Fixtures.rootA Fixtures.enemy).
    + right. left. reflexivity.
    + discriminate.
  - intros Hin. apply children_In in Hin. destruct Hin as [_ [_ H]]. discriminate H.
Defined.

(** X2: a node is never among its own children, except a node named ["."]
    placed directly under the root, whose path collides with the root's. *)
Theorem children_not_self (scene : AssetGodotScene) (n : GodotNode) :
  In n (children scene n) -> parent n = Some "." /\ name n = ".".
Proof.
  intros Hin. apply children_In in Hin. destruct Hin as [_ [Hp _]].
  destruct (parent n) as [p|] eqn:Hpar; [|discriminate].
  injection Hp as Hp.
  destruct (string_dec p "") as [He|Hne].
  - rewrite He in Hp, Hpar.
    rewrite scenePath_root in Hp by (rewrite Hpar; reflexivity).
    discriminate.
  - rewrite (scenePath_child n p Hpar Hne) in Hp.
    destruct (String.eqb_spec p ".") as [Hd|Hd].
    + rewrite Hd. split; [reflexivity | congruence].
    + symmetry in Hp. apply append_not_self in Hp; [contradiction | discriminate].
Qed.

Lemma children_not_self_witness :
  parent Cases.dot = Some "." /\ name Cases.dot = ".".
Proof.
  apply (children_not_self Cases.dots Cases.dot). left. reflexivity.
Defined.

(** ** What [instance] and [getScript] return *)

Lemma find_source_file_some (resPath : string) (l : list BaseAsset) (sf : AssetSourceFile) :
  find_source_file resPath l = Some sf ->
  In (SourceFileAsset sf) l /\ sf_resPath sf = resPath.
Proof.
  induction l as [|a l IH]; simpl; [discriminate|].
  destruct a as [sf'| | |]; simpl; try (intros H; destruct (IH H); auto).
  destruct (String.eqb_spec (sf_resPath sf') resPath) as [He|Hn].
  - intros H. injection H as <-. auto.
  - intros H. destruct (IH H). auto.
Qed.

(** X3: the asset [instance] returns is one of the project's, its path is
    the path the resource table gives for the node's instance id, and a
    model is returned only when no scene of the project has that path. *)
Theorem instance_sound (project : TsGdProjectClass) (scene : AssetGodotScene)
    (n : GodotNode) (a : Instance) :
  instance project scene n = Ok (Some a) ->
  exists iid res,
    instanceId n = Some iid
    /\ In res (resources scene) /\ rt_id res = iid
    /\ match a with
       | InstScene s => In s (godotScenes project) /\ scene_fsPath s = rt_fsPath res
       | InstGlb g =>
           In g (godotGlbs project) /\ glb_fsPath g = rt_fsPath res
           /\ forall s, In s (godotScenes project) -> scene_fsPath s <> rt_fsPath res
       end.
Proof.
  unfold instance. destruct (instanceId n) as [iid|]; [|discriminate].
  destruct (find _ (resources scene)) as [res|] eqn:Hres; [|discriminate].
  apply find_some in Hres. destruct Hres as [Hin Hid]. apply Z.eqb_eq in Hid.
  destruct (find _ (godotScenes project)) as [s|] eqn:Hs.
  - intros H. injection H as <-. exists iid, res.
    apply find_some in Hs. destruct Hs as [Hs1 Hs2]. apply String.eqb_eq in Hs2.
    auto.
  - destruct (find _ (godotGlbs project)) as [g|] eqn:Hg; [|discriminate].
    intros H. injection H as <-. exists iid, res.
    apply find_some in Hg. destruct Hg as [Hg1 Hg2]. apply String.eqb_eq in Hg2.
    repeat split; auto.
    intros s Hin' Heq.
    pose proof (find_none _ _ Hs s Hin') as Hf. simpl in Hf.
    rewrite Heq, String.eqb_refl in Hf. discriminate.
Qed.

Lemma instance_sound_witness :
  exists iid res,
    instanceId Cases.tree = Some iid
    /\ In res (resources Cases.forest) /\ rt_id res = iid
    /\ In Cases.tree_glb (godotGlbs Cases.glb_project)
    /\ glb_fsPath Cases.tree_glb = rt_fsPath res
    /\ forall s, In s (godotScenes Cases.glb_project) -> scene_fsPath s <> rt_fsPath res.
Proof.
  apply (instance_sound Cases.glb_project Cases.forest Cases.tree
           (InstGlb Cases.tree_glb)).
  reflexivity.
Defined.

(** X4: [instance] throws exactly when the node has an instance id that no
    entry of the scene's resource table carries, whatever the project
    contains; the error names the id and the node's path. *)
Theorem instance_throws_iff (project : TsGdProjectClass) (scene : AssetGodotScene)
    (n : GodotNode) (e : JsError) :
  instance project scene n = Throw e <->
  exists iid,
    instanceId n = Some iid
    /\ (forall res, In res (resources scene) -> rt_id res <> iid)
    /\ e = cant_find_scene iid (scenePath n).
Proof.
  unfold instance. split.
  - destruct (instanceId n) as [iid|]; [|discriminate].
    destruct (find _ (resources scene)) as [res|] eqn:Hres.
    + destruct (find _ (godotScenes project)); [discriminate|].
      destruct (find _ (godotGlbs project)); discriminate.
    + intros H. injection H as <-. exists iid. repeat split; auto.
      intros res Hin Heq.
      pose proof (find_none _ _ Hres res Hin) as Hf. simpl in Hf.
      apply Z.eqb_neq in Hf. contradiction.
  - intros [iid [Hi [Hnone He]]]. rewrite Hi.
    destruct (find _ (resources scene)) as [res|] eqn:Hres.
    + apply find_some in Hres. destruct Hres as [Hin Hid].
      apply Z.eqb_eq in Hid. destruct (Hnone res Hin Hid).
    + rewrite He. reflexivity.
Qed.

(** X5: a script returned by [getScript] is a source file among the
    project's assets, and its resource path is an entry of the resource
    table of the node's own scene or of the scene the node instances. *)
Theorem getScript_sound (project : TsGdProjectClass) (scene : AssetGodotScene)
    (n : GodotNode) (sf : AssetSourceFile) :
  getScript project scene n = Ok (Some sf) ->
  In (SourceFileAsset sf) (assets project)
  /\ exists table externalResource,
       (table = scene \/ instance project scene n = Ok (Some (InstScene table)))
       /\ In externalResource (resources table)
       /\ sf_resPath sf = rt_resPath externalResource.
Proof.
  assert (Hres : forall sid table,
    match sid with
    | None => Ok None
    | Some sid =>
        if negb (truthy_num (Some sid)) then Ok None
        else
          match find (fun obj => (rt_id obj =? sid)%Z) (resources table) with
          | None => Throw (expected_resource sid (scene_fsPath scene))
          | Some externalResource =>
              Ok (find_source_file (rt_resPath externalResource) (assets project))
          end
    end = Ok (Some sf) ->
    In (SourceFileAsset sf) (assets project)
    /\ exists externalResource,
         In externalResource (resources table)
         /\ sf_resPath sf = rt_resPath externalResource).
  { intros [sid|] table; [|discriminate].
    destruct (negb (truthy_num (Some sid))); [discriminate|].
    destruct (find _ (resources table)) as [ext|] eqn:Hext; [|discriminate].
    intros H. injection H as H.
    apply find_source_file_some in H. destruct H as [H1 H2].
    apply find_some in Hext. destruct Hext as [Hin _].
    split; [exact H1|]. exists ext. auto. }
  unfold getScript.
  destruct (negb (truthy_num (scriptExtResourceId n))).
  - destruct (instance project scene n) as [[[inst|g]|]|e] eqn:Hinst.
    + destruct (rootNode inst) as [root|]; [|discriminate].
      intros H. apply Hres in H. destruct H as [H1 [ext [H2 H3]]].
      split; [exact H1|]. exists inst, ext. auto.
    + intros H. apply Hres in H. destruct H as [H1 [ext [H2 H3]]].
      split; [exact H1|]. exists scene, ext. auto.
    + intros H. apply Hres in H. destruct H as [H1 [ext [H2 H3]]].
      split; [exact H1|]. exists scene, ext. auto.
    + discriminate.
  - intros H. apply Hres in H. destruct H as [H1 [ext [H2 H3]]].
    split; [exact H1|]. exists scene, ext. auto.
Qed.

Lemma getScript_sound_witness :
  In (SourceFileAsset Fixtures.player_ts) (assets Fixtures.project)
  /\ exists table externalResource,
       (table = Fixtures.sceneA
        \/ instance Fixtures.project Fixtures.sceneA Fixtures.enemy
           = Ok (Some (InstScene table)))
       /\ In externalResource (resources table)
       /\ sf_resPath Fixtures.player_ts = rt_resPath externalResource.
Proof.
  apply (getScript_sound Fixtures.project Fixtures.sceneA Fixtures.enemy
           Fixtures.player_ts).
  reflexivity.
Defined.

Lemma instance_throws_iff_witness :
  exists iid,
    instanceId Fixtures.enemy = Some iid
    /\ (forall res, In res (resources Fixtures.broken) -> rt_id res <> iid)
    /\ cant_find_scene 2 "Enemy" = cant_find_scene iid (scenePath Fixtures.enemy).
Proof.
  apply (instance_throws_iff Fixtures.project Fixtures.broken Fixtures.enemy).
  reflexivity.
Defined.

(** X6: a node without a usable script id of its own (none, or [0]) that
    instances no scene has no backing script: when [instance] returns
    nothing or a model, [getScript] returns nothing, whatever the resource
    table holds. *)
Theorem getScript_no_script (project : TsGdProjectClass) (scene : AssetGodotScene)
    (n : GodotNode) :
  truthy_num (scriptExtResourceId n) = false ->
  (instance project scene n = Ok None
   \/ exists g, instance project scene n = Ok (Some (InstGlb g))) ->
  getScript project scene n = Ok None.
Proof.
  intros Hs Hi. unfold getScript. rewrite Hs. simpl.
  assert (Hown : match scriptExtResourceId n with
                 | None => Ok None
                 | Some sid =>
                     if negb (truthy_num (Some sid)) then Ok None
                     else
                       match find (fun obj => (rt_id obj =? sid)%Z) (resources scene) with
                       | None => Throw (expected_resource sid (scene_fsPath scene))
                       | Some externalResource =>
                           Ok (find_source_file (rt_resPath externalResource)
                                 (assets project))
                       end
                 end = @Ok (option AssetSourceFile) None).
  { destruct (scriptExtResourceId n) as [sid|]; [|reflexivity].
    rewrite Hs. reflexivity. }
  destruct Hi as [Hi|[g Hi]]; rewrite Hi; exact Hown.
Qed.

Lemma getScript_no_script_witness :
  getScript Fixtures.project Cases.sceneZ Cases.zscript = Ok None
  /\ getScript Cases.glb_project Cases.forest Cases.tree = Ok None.
Proof.
  split.
  - apply (getScript_no_script Fixtures.project Cases.sceneZ Cases.zscript);
      [reflexivity | left; reflexivity].
  - apply (getScript_no_script Cases.glb_project Cases.forest Cases.tree);
      [reflexivity | right; exists Cases.tree_glb; reflexivity].
Defined.

(** X7: every error [getScript] throws is one of three: the error of
    [instance], for a node without script id of its own; a [TypeError],
    when the instanced scene has no root; or the missing-resource error for
    a non-zero script id, which always names the file of the node's own
    scene, also when the id was looked up in the instanced scene. *)
Theorem getScript_throws (project : TsGdProjectClass) (scene : AssetGodotScene)
    (n : GodotNode) (e : JsError) :
  getScript project scene n = Throw e ->
  (truthy_num (scriptExtResourceId n) = false /\ instance project scene n = Throw e)
  \/ (e = TypeError
      /\ exists inst, instance project scene n = Ok (Some (InstScene inst))
                      /\ rootNode inst = None)
  \/ (exists sid table,
        e = expected_resource sid (scene_fsPath scene) /\ sid <> 0%Z
        /\ (forall r, In r (resources table) -> rt_id r <> sid)
        /\ ((scriptExtResourceId n = Some sid /\ table = scene)
            \/ exists root,
                 instance project scene n = Ok (Some (InstScene table))
                 /\ rootNode table = Some root
                 /\ scriptExtResourceId root = Some sid)).
Proof.
  assert (Hres : forall osid table,
    match osid with
    | None => Ok None
    | Some sid =>
        if negb (truthy_num (Some sid)) then Ok None
        else
          match find (fun obj => (rt_id obj =? sid)%Z) (resources table) with
          | None => Throw (expected_resource sid (scene_fsPath scene))
          | Some externalResource =>
              Ok (find_source_file (rt_resPath externalResource) (assets project))
          end
    end = Throw e ->
    exists sid, osid = Some sid /\ e = expected_resource sid (scene_fsPath scene)
                /\ sid <> 0%Z
                /\ (forall r, In r (resources table) -> rt_id r <> sid)).
  { intros [sid|] table; [|discriminate].
    destruct (Z.eqb_spec sid 0) as [Hz|Hz].
    - subst sid. discriminate.
    - rewrite (truthy_num_some sid Hz). simpl.
      destruct (find _ (resources table)) as [ext|] eqn:Hext; [discriminate|].
      intros H. injection H as <-. exists sid. repeat split; auto.
      intros r Hin Heq. pose proof (find_none _ _ Hext r Hin) as Hf. simpl in Hf.
      apply Z.eqb_neq in Hf. contradiction. }
  unfold getScript.
  destruct (truthy_num (scriptExtResourceId n)) eqn:Hs; simpl.
  - intros H. apply Hres in H. destruct H as [sid [H1 [H2 [H3 H4]]]].
    right. right. exists sid, scene. auto 6.
  - destruct (instance project scene n) as [[[inst|g]|]|e'] eqn:Hinst.
    + destruct (rootNode inst) as [root|] eqn:Hroot.
      * intros H. apply Hres in H. destruct H as [sid [H1 [H2 [H3 H4]]]].
        right. right. exists sid, inst. repeat split; auto.
        right. exists root. auto.
      * intros H. injection H as <-. right. left. split; [reflexivity|].
        exists inst. auto.
    + intros H. apply Hres in H. destruct H as [sid [H1 [H2 [H3 H4]]]].
      rewrite H1 in Hs. rewrite (truthy_num_some sid H3) in Hs. discriminate.
    + intros H. apply Hres in H. destruct H as [sid [H1 [H2 [H3 H4]]]].
      rewrite H1 in Hs. rewrite (truthy_num_some sid H3) in Hs. discriminate.
    + intros H. injection H as <-. left. auto.
Qed.

Lemma getScript_throws_witness :
  (truthy_num (scriptExtResourceId Fixtures.enemy) = false
   /\ instance Fixtures.project Fixtures.broken Fixtures.enemy
      = Throw (cant_find_scene 2 "Enemy"))
  \/ (cant_find_scene 2 "Enemy" = TypeError
      /\ exists inst,
           instance Fixtures.project Fixtures.broken Fixtures.enemy
           = Ok (Some (InstScene inst))
           /\ rootNode inst = None)
  \/ (exists sid table,
        cant_find_scene 2 "Enemy"
        = expected_resource sid (scene_fsPath Fixtures.broken) /\ sid <> 0%Z
        /\ (forall r, In r (resources table) -> rt_id r <> sid)
        /\ ((scriptExtResourceId Fixtures.enemy = Some sid /\ table = Fixtures.broken)
            \/ exists root,
                 instance Fixtures.project Fixtures.broken Fixtures.enemy
                 = Ok (Some (InstScene table))
                 /\ rootNode table = Some root
                 /\ scriptExtResourceId root = Some sid)).
Proof.
  apply (getScript_throws Fixtures.project Fixtures.broken Fixtures.enemy).
  reflexivity.
Defined.

(** ** Diagnostics of a type query *)

Lemma truthy_str_nonempty (t : string) : truthy_str (Some t) = true -> t <> "".
Proof. destruct t; [discriminate | discriminate]. Qed.

Lemma reports_any (k : Sink) (e : TsGdError) :
  reports k ((addError e ;;; ret "any") k).
Proof.
  simpl. split; [discriminate|]. right. split; [reflexivity|]. exists e. reflexivity.
Qed.

Lemma GodotNode_tsType_reports (rec : AssetGodotScene -> M string)
    (project : TsGdProjectClass) (scene : AssetGodotScene) (n : GodotNode) (k : Sink) :
  (forall s, reports k (rec s k)) ->
  reports k (GodotNode_tsType rec project scene n k).
Proof.
  intros Hrec.
  assert (Hun : reports k
    ((if isInstanceOverride n then addError (override_error n) ;;; ret "any"
      else
        inst <- lift (instance project scene n) ;;
        instancedSceneType <-
          match inst with
          | Some (InstScene s) => t <- rec s ;; ret (Some t)
          | Some (InstGlb g) => ret (Some (glb_tsType g))
          | None => ret None
          end ;;
        match instancedSceneType with
        | Some t => if truthy_str (Some t) then ret t
                    else addError (missing_instance_error scene n) ;;; ret "any"
        | None => addError (missing_instance_error scene n) ;;; ret "any"
        end) k)).
  { destruct (isInstanceOverride n); [apply reports_any|].
    destruct (instance project scene n) as [[[s|g]|]|e]; cbv [lift bind ret throw].
    - specialize (Hrec s). destruct (rec s k) as [[[t|e] k']|].
      + cbv beta iota. rewrite (truthy_str_some t (proj1 Hrec)). exact Hrec.
      + exact Hrec.
      + exact I.
    - destruct (truthy_str (Some (glb_tsType g))) eqn:Hg.
      + cbn. split; [apply truthy_str_nonempty, Hg | left; reflexivity].
      + apply reports_any.
    - apply reports_any.
    - cbn. reflexivity. }
  unfold GodotNode_tsType.
  destruct (_type n) as [t|]; [|exact Hun].
  destruct (truthy_str (Some t)) eqn:Ht; [|exact Hun].
  cbn. split; [apply truthy_str_nonempty, Ht | left; reflexivity].
Qed.

Lemma AssetGodotScene_tsType_reports (fuel : nat) (project : TsGdProjectClass)
    (scene : AssetGodotScene) (k : Sink) :
  reports k (AssetGodotScene_tsType fuel project scene k).
Proof.
  revert scene. induction fuel as [|fuel IH]; intros scene; [exact I|].
  cbn [AssetGodotScene_tsType].
  destruct (rootNode scene) as [root|]; [|reflexivity].
  cbv [bind lift]. destruct (getScript project scene root) as [[rs|]|e].
  - cbv [ret]. destruct (find _ (sourceFiles project)) as [sf|];
      [|apply reports_any].
    destruct (negb (truthy_str (exportedTsClassName sf))); [apply reports_any|].
    cbn. split; [discriminate | left; reflexivity].
  - cbv [ret]. apply GodotNode_tsType_reports. exact IH.
  - reflexivity.
Qed.

(** X8: a type query, of a node or of a scene, either throws and leaves the
    sink as it was, or returns a non-empty type; it appends at most one
    diagnostic, and when it appends one the type it returns is ["any"]. *)
Theorem tsType_reports (fuel : nat) (project : TsGdProjectClass)
    (scene : AssetGodotScene) (n : GodotNode) (k : Sink) :
  match tsType fuel project scene n k with
  | Some (Ok t, k') =>
      t <> "" /\ (k' = k \/ (t = "any" /\ exists d, k' = (k ++ [d])%list))
  | Some (Throw _, k') => k' = k
  | None => True
  end
  /\ match AssetGodotScene_tsType fuel project scene k with
     | Some (Ok t, k') =>
         t <> "" /\ (k' = k \/ (t = "any" /\ exists d, k' = (k ++ [d])%list))
     | Some (Throw _, k') => k' = k
     | None => True
     end.
Proof.
  split.
  - apply (GodotNode_tsType_reports _ project scene n k).
    intros s. apply AssetGodotScene_tsType_reports.
  - apply AssetGodotScene_tsType_reports.
Qed.

(** ** Depth of the recursion *)

(** X11: a scene whose root has no declared type and no script and instances
    the scene itself has no type: the recursion of [tsType] through the
    instance never ends, whatever depth is allowed. *)
Theorem tsType_self_instance_diverges (fuel : nat) (project : TsGdProjectClass)
    (scene : AssetGodotScene) (root : GodotNode) (k : Sink) :
  rootNode scene = Some root ->
  truthy_str (_type root) = false ->
  truthy_num (scriptExtResourceId root) = false ->
  isInstance root = true ->
  instance project scene root = Ok (Some (InstScene scene)) ->
  AssetGodotScene_tsType fuel project scene k = None
  /\ tsType fuel project scene root k = None.
Proof.
  intros Hr Ht Hs Hi Hinst.
  assert (Hscript : getScript project scene root = Ok None).
  { rewrite (getScript_inherited _ _ _ _ _ Hs Hinst Hr).
    destruct (scriptExtResourceId root) as [sid|]; [|reflexivity].
    rewrite Hs. reflexivity. }
  assert (Hnode : forall f, AssetGodotScene_tsType f project scene k = None ->
                            tsType f project scene root k = None).
  { intros f H. unfold tsType.
    rewrite (tsType_through_instance _ _ _ _ Ht Hi), Hinst.
    cbv [lift bind ret]. rewrite H. reflexivity. }
  assert (Hscene : AssetGodotScene_tsType fuel project scene k = None).
  { induction fuel as [|fuel IH]; [reflexivity|].
    rewrite (scene_tsType_no_script fuel _ _ _ Hr Hscript). apply Hnode, IH. }
  split; [exact Hscene | apply Hnode, Hscene].
Qed.

Lemma tsType_self_instance_diverges_witness :
  AssetGodotScene_tsType 50 Cases.loop_project Cases.loop [] = None
  /\ tsType 50 Cases.loop_project Cases.loop Cases.loop_root [] = None.
Proof.
  apply (tsType_self_instance_diverges 50 Cases.loop_project Cases.loop Cases.loop_root []);
    reflexivity.
Defined.

(** X12: instancing chains of any depth resolve: when following [d]
    instancing roots without type and script from a scene leads to a scene
    whose root script exports a class, the type of the scene is the import
    of that class for every fuel above [d], and nothing is reported. *)
Theorem tsType_chain (project : TsGdProjectClass) (d : nat)
    (scene : AssetGodotScene) (t : string) (fuel : nat) (k : Sink) :
  resolves_to project d scene t -> d < fuel ->
  AssetGodotScene_tsType fuel project scene k = Some (Ok t, k).
Proof.
  intros H Hlt. apply (proj2 (resolves_to_tsType project d scene t H)). exact Hlt.
Qed.

Lemma tsType_chain_witness :
  AssetGodotScene_tsType 2 Fixtures.project Fixtures.sceneA []
  = Some (Ok "import('/game/Player').Player", []).
Proof.
  apply (tsType_chain Fixtures.project 1 Fixtures.sceneA
           (import_type Fixtures.player_ts "Player") 2 []); [|lia].
  apply (resolves_instance Fixtures.project 0 Fixtures.sceneA Fixtures.sceneB
           Fixtures.rootA); try reflexivity.
  apply (resolves_script Fixtures.project Fixtures.sceneB Fixtures.rootB
           Fixtures.player_ts Fixtures.player_ts "Player");
    try reflexivity; discriminate.
Defined.

(** ** Models, classes and module paths *)

(** X13: a node without declared type that instances a model has the type
    of the model, and nothing is reported; when the model has no type the
    node is reported as missing and its type is ["any"]. No scene is
    consulted, so this holds at every depth. *)
Theorem tsType_glb (fuel : nat) (project : TsGdProjectClass) (scene : AssetGodotScene)
    (n : GodotNode) (g : AssetGlb) (k : Sink) :
  truthy_str (_type n) = false -> isInstance n = true ->
  instance project scene n = Ok (Some (InstGlb g)) ->
  tsType fuel project scene n k
  = if truthy_str (Some (glb_tsType g)) then Some (Ok (glb_tsType g), k)
    else Some (Ok "any", (k ++ [missing_instance_error scene n])%list).
Proof.
  intros Ht Hi Hinst. unfold tsType.
  rewrite (tsType_through_instance _ _ _ _ Ht Hi), Hinst.
  cbv [lift bind ret]. destruct (truthy_str (Some (glb_tsType g))); reflexivity.
Qed.

Lemma tsType_glb_witness :
  tsType 0 Cases.glb_project Cases.forest Cases.tree [] = Some (Ok "Spatial", []).
Proof.
  apply (tsType_glb 0 Cases.glb_project Cases.forest Cases.tree Cases.tree_glb []);
    reflexivity.
Defined.

(** X14: when the root's backing script is among the project's source files
    but exports no class, the scene's type is ["any"] and one diagnostic is
    appended, located at the script's file. *)
Theorem scene_tsType_no_class (fuel : nat) (project : TsGdProjectClass)
    (scene : AssetGodotScene) (root : GodotNode)
    (rootScript rootSourceFile : AssetSourceFile) (k : Sink) :
  rootNode scene = Some root ->
  getScript project scene root = Ok (Some rootScript) ->
  find (fun sf => String.eqb (sf_resPath sf) (sf_resPath rootScript)) (sourceFiles project)
  = Some rootSourceFile ->
  truthy_str (exportedTsClassName rootSourceFile) = false ->
  AssetGodotScene_tsType (S fuel) project scene k
  = Some (Ok "any", (k ++ [classname_error rootScript])%list)
  /\ location (classname_error rootScript) = sf_fsPath rootScript.
Proof.
  intros Hr Hs Hf Hc. split; [|reflexivity].
  cbn [AssetGodotScene_tsType]. rewrite Hr, Hs.
  cbv [lift bind ret]. rewrite Hf, Hc. reflexivity.
Qed.

Lemma scene_tsType_no_class_witness :
  AssetGodotScene_tsType 1 Cases.util_project Cases.sceneU []
  = Some (Ok "any", [classname_error Cases.util_ts])
  /\ location (classname_error Cases.util_ts) = "/game/Util.ts".
Proof.
  apply (scene_tsType_no_class 0 Cases.util_project Cases.sceneU Fixtures.rootC
           Cases.util_ts Cases.util_ts []); reflexivity.
Defined.

Lemma substring_0_0 (s : string) : substring 0 0 s = "".
Proof. destruct s; reflexivity. Qed.

Lemma substring_prefix (a b : string) : substring 0 (String.length a) (a ++ b) = a.
Proof.
  induction a as [|c a IH]; simpl; [apply substring_0_0 | rewrite IH; reflexivity].
Qed.

Lemma slice_0_neg_append (a b : string) : slice_0_neg (String.length b) (a ++ b) = a.
Proof.
  unfold slice_0_neg. rewrite length_append.
  replace (String.length a + String.length b - String.length b) with (String.length a)
    by lia.
  apply substring_prefix.
Qed.

(** X15: the module path of the import is the script's file path without
    its last three characters, whatever they are: for [base.ts] it is
    [base]; a path of three characters or fewer gives the empty module
    path. *)
Theorem import_type_module_path (sf : AssetSourceFile) (className : string) :
  (forall base ext,
      sf_fsPath sf = base ++ ext -> String.length ext = 3 ->
      import_type sf className = "import('" ++ base ++ "')." ++ className)
  /\ (String.length (sf_fsPath sf) <= 3 ->
      import_type sf className = "import('')." ++ className).
Proof.
  unfold import_type. split.
  - intros base ext Hp Hl. rewrite Hp.
    change (String.length ".ts") with 3. rewrite <- Hl, slice_0_neg_append.
    reflexivity.
  - intros Hl. unfold slice_0_neg. change (String.length ".ts") with 3.
    replace (String.length (sf_fsPath sf) - 3) with 0 by lia.
    rewrite substring_0_0. reflexivity.
Qed.

Lemma import_type_module_path_witness :
  import_type Fixtures.player_ts "Player" = "import('/game/Player').Player"
  /\ import_type {| sf_resPath := "res://a"; sf_fsPath := "/a";
                    exportedTsClassName := Some "A" |} "A"
     = "import('').A".
Proof.
  split.
  - apply (proj1 (import_type_module_path Fixtures.player_ts "Player")
             "/game/Player" ".ts"); reflexivity.
  - apply (proj2 (import_type_module_path
                    {| sf_resPath := "res://a"; sf_fsPath := "/a";
                       exportedTsClassName := Some "A" |} "A")).
    simpl. lia.
Defined.

(** ** Constructed scenes *)

Section Constructed.

Variable FsPathToResPath : string -> string.
Variable ResPathToFsPath : string -> string.
Variable basename : string -> string -> string.

Lemma find_resource_of_section (l : list ExtResourceSection) (i : Z) :
  find (fun res => (rt_id res =? i)%Z) (map (resource_of_section ResPathToFsPath) l)
  = option_map (resource_of_section ResPathToFsPath)
      (find (fun e => (ext_id e =? i)%Z) l).
Proof.
  induction l as [|e l IH]; simpl; [reflexivity|].
  destruct (ext_id e =? i)%Z; [reflexivity | exact IH].
Qed.

Lemma find_unique_id (l : list ExtResourceSection) (e : ExtResourceSection) :
  NoDup (map ext_id l) -> In e l ->
  find (fun e' => (ext_id e' =? ext_id e)%Z) l = Some e.
Proof.
  induction l as [|a l IH]; simpl; [contradiction|].
  intros Hnd [Ha|Hin].
  - subst a. rewrite Z.eqb_refl. reflexivity.
  - inversion Hnd as [|x xs Hnotin Hnd']; subst.
    destruct (Z.eqb_spec (ext_id a) (ext_id e)) as [Heq|Hne].
    + exfalso. apply Hnotin. rewrite Heq. apply in_map, Hin.
    + apply IH; assumption.
Qed.

(** X16: in a constructed scene, looking an id up in the resource table
    gives the first [ext_resource] section with that id, with its path and
    the file path derived from it; when the ids of the sections are
    distinct, every section is found under its own id, and a node whose
    instance id is that id resolves to the project's scene at that file
    path. *)
Theorem constructed_resources (fsPath : string) (sceneFile : IGodotSceneFile)
    (k : Sink) (scene : AssetGodotScene) (sections : list ExtResourceSection) :
  AssetGodotScene_new FsPathToResPath ResPathToFsPath basename fsPath sceneFile k
  = Some (Ok scene, k) ->
  ext_resource sceneFile = Some sections ->
  (forall i,
      find (fun res => (rt_id res =? i)%Z) (resources scene)
      = option_map (resource_of_section ResPathToFsPath)
          (find (fun e => (ext_id e =? i)%Z) sections))
  /\ (NoDup (map ext_id sections) ->
      forall e, In e sections ->
        find (fun res => (rt_id res =? ext_id e)%Z) (resources scene)
        = Some {| rt_resPath := ext_path e;
                  rt_fsPath := ResPathToFsPath (ext_path e);
                  rt_id := ext_id e |}
        /\ forall project n target,
             instanceId n = Some (ext_id e) ->
             find (fun s => String.eqb (scene_fsPath s) (ResPathToFsPath (ext_path e)))
                  (godotScenes project) = Some target ->
             instance project scene n = Ok (Some (InstScene target))).
Proof.
  intros Hnew Hext. unfold AssetGodotScene_new, ret in Hnew.
  injection Hnew as Hscene. subst scene. cbn [resources]. rewrite Hext.
  split; [apply find_resource_of_section|].
  intros Hnd e Hin.
  assert (Hfind : find (fun res => (rt_id res =? ext_id e)%Z)
                    (map (resource_of_section ResPathToFsPath) sections)
                  = Some (resource_of_section ResPathToFsPath e)).
  { rewrite find_resource_of_section, (find_unique_id sections e Hnd Hin).
    reflexivity. }
  split; [exact Hfind|].
  intros project n target Hi Hs. unfold instance. rewrite Hi. cbn [resources].
  rewrite Hfind. cbn [rt_fsPath resource_of_section]. rewrite Hs. reflexivity.
Qed.

(** X17: in a constructed scene the root, when there is one, is a node of
    the scene with [isRoot] set and path ["."], and its children are exactly
    the nodes of the scene whose parent attribute is ["."] and that are not
    instance overrides. *)
Theorem constructed_root (fsPath : string) (sceneFile : IGodotSceneFile)
    (k : Sink) (scene : AssetGodotScene) (root : GodotNode) :
  AssetGodotScene_new FsPathToResPath ResPathToFsPath basename fsPath sceneFile k
  = Some (Ok scene, k) ->
  rootNode scene = Some root ->
  In root (nodes scene) /\ isRoot root = true /\ scenePath root = "."
  /\ forall m, In m (children scene root) <->
               In m (nodes scene) /\ parent m = Some "."
               /\ isInstanceOverride m = false.
Proof.
  intros Hnew Hroot. unfold AssetGodotScene_new, ret in Hnew.
  injection Hnew as Hscene. subst scene. cbn [rootNode nodes] in *.
  apply find_some in Hroot. destruct Hroot as [Hin Hpar].
  apply negb_true_iff in Hpar.
  assert (Hpath : scenePath root = ".") by (apply scenePath_root, Hpar).
  split; [exact Hin|]. split.
  - apply in_map_iff in Hin. destruct Hin as [props [<- _]].
    rewrite isRoot_new, Hpar. reflexivity.
  - split; [exact Hpath|]. intros m. rewrite children_In, Hpath. reflexivity.
Qed.

End Constructed.

Lemma constructed_resources_witness :
  exists scene,
    AssetGodotScene_new (fun s => s)
      (fun s => "/game/" ++ substring 6 (String.length s - 6) s)
      (fun s _ => s) "/game/Level.tscn" Cases.level_file []
    = Some (Ok scene, [])
    /\ find (fun res => (rt_id res =? 1)%Z) (resources scene)
       = Some {| rt_resPath := "res://C.tscn"; rt_fsPath := "/game/C.tscn"; rt_id := 1 |}
    /\ instance Fixtures.project scene
         (Fixtures.mk_node "Enemy" None (Some ".") (Fixtures.ext 1) None)
       = Ok (Some (InstScene Fixtures.sceneC)).
Proof.
  eexists. split; [reflexivity|].
  destruct (constructed_resources (fun s => s)
              (fun s => "/game/" ++ substring 6 (String.length s - 6) s)
              (fun s _ => s) "/game/Level.tscn" Cases.level_file [] _
              [ {| ext_path := "res://C.tscn"; ext_type := "PackedScene"; ext_id := 1 |};
                {| ext_path := "res://Player.ts"; ext_type := "Script"; ext_id := 2 |} ]
              eq_refl eq_refl) as [_ Huniq].
  assert (Hnd : NoDup (map ext_id
            [ {| ext_path := "res://C.tscn"; ext_type := "PackedScene"; ext_id := 1 |};
              {| ext_path := "res://Player.ts"; ext_type := "Script"; ext_id := 2 |} ])).
  { simpl. repeat constructor; simpl; intuition discriminate. }
  destruct (Huniq Hnd {| ext_path := "res://C.tscn"; ext_type := "PackedScene";
                         ext_id := 1 |} (or_introl eq_refl)) as [Hfind Hinst].
  split; [exact Hfind|].
  apply (Hinst Fixtures.project
           (Fixtures.mk_node "Enemy" None (Some ".") (Fixtures.ext 1) None)
           Fixtures.sceneC); reflexivity.
Defined.

Lemma constructed_root_witness :
  exists scene root,
    AssetGodotScene_new (fun s => s) (fun s => s) (fun s _ => s)
      "/game/Level.tscn" Cases.level_file []
    = Some (Ok scene, [])
    /\ rootNode scene = Some root
    /\ In root (nodes scene) /\ isRoot root = true /\ scenePath root = "."
    /\ forall m, In m (children scene root) <->
                 In m (nodes scene) /\ parent m = Some "."
                 /\ isInstanceOverride m = false.
Proof.
  do 2 eexists. split; [reflexivity|]. split; [reflexivity|].
  apply (constructed_root (fun s => s) (fun s => s) (fun s _ => s)
           "/game/Level.tscn" Cases.level_file []); reflexivity.
Defined.

(** ** The shape of paths and of overrides *)

(** X18: the path ["."] belongs to the nodes without parent, and to no
    other node except one named ["."] placed directly under the root. *)
Theorem scenePath_dot_iff (n : GodotNode) :
  scenePath n = "." <->
  truthy_str (parent n) = false \/ (parent n = Some "." /\ name n = ".").
Proof.
  split.
  - destruct (truthy_str (parent n)) eqn:Ht; [|auto].
    destruct (parent n) as [p|] eqn:Hp; [|discriminate].
    assert (Hne : p <> "") by (apply truthy_str_nonempty, Ht).
    rewrite (scenePath_child n p Hp Hne).
    destruct (String.eqb_spec p ".") as [Hd|Hd].
    + intros Hn. right. rewrite Hd. auto.
    + intros H. apply (f_equal String.length) in H.
      rewrite length_append in H. simpl in H.
      destruct p; [congruence | simpl in H; lia].
  - intros [Ht|[Hp Hn]].
    + apply scenePath_root, Ht.
    + rewrite (scenePath_child n "." Hp); [exact Hn | discriminate].
Qed.

(** X19: in terms of the parsed section, a node is an instance override
    exactly when its type is missing or empty and its instance reference is
    missing, has no argument, or has the argument [0]. *)
Theorem isInstanceOverride_section (props : NodeProps) :
  isInstanceOverride (GodotNode_new props) = true <->
  truthy_str (sec_type (props_section props)) = false
  /\ (first_arg (sec_instance (props_section props)) = None
      \/ first_arg (sec_instance (props_section props)) = Some 0%Z).
Proof.
  unfold isInstanceOverride, isInstance.
  rewrite instanceId_first_arg. cbn [GodotNode_new _type section].
  rewrite andb_true_iff, !negb_true_iff.
  destruct (first_arg (sec_instance (props_section props))) as [z|]; simpl.
  - rewrite negb_false_iff, Z.eqb_eq. split.
    + intros [Ht Hz]. subst z. auto.
    + intros [Ht [H|H]]; [discriminate|]. injection H as ->. auto.
  - split; [intros [Ht _]; auto | intros [Ht _]; auto].
Qed.

Lemma scenePath_dot_iff_witness :
  truthy_str (parent Cases.dot) = false
  \/ (parent Cases.dot = Some "." /\ name Cases.dot = ".").
Proof.
  apply (scenePath_dot_iff Cases.dot). reflexivity.
Defined.

Lemma isInstanceOverride_section_witness :
  isInstanceOverride Fixtures.zero = true.
Proof.
  apply (isInstanceOverride_section
           {| props_section := {| sec_name := "Zero"; sec_type := None;
                                  sec_parent := Some "."; sec_groups := None;
                                  sec_instance := Fixtures.ext 0 |};
              props_script := None |}).
  split; [reflexivity | right; reflexivity].
Defined.

(** X20: the children lists are a function of the path: two nodes with the
    same path have the same children, and a node that is a child of two
    nodes is so because they have the same path. *)
Theorem children_by_path (scene : AssetGodotScene) (n1 n2 : GodotNode) :
  (scenePath n1 = scenePath n2 -> children scene n1 = children scene n2)
  /\ (forall m, In m (children scene n1) -> In m (children scene n2) ->
                scenePath n1 = scenePath n2).
Proof.
  split.
  - intros H. unfold children. rewrite H. reflexivity.
  - intros m H1 H2. apply children_In in H1. apply children_In in H2.
    destruct H1 as [_ [H1 _]]. destruct H2 as [_ [H2 _]]. congruence.
Qed.

Lemma children_by_path_witness :
  children Fixtures.sceneA Fixtures.rootA = children Fixtures.sceneA Fixtures.main
  /\ scenePath Fixtures.rootA = scenePath Fixtures.main.
Proof.
  split.
  - apply (children_by_path Fixtures.sceneA Fixtures.rootA Fixtures.main). reflexivity.
  - apply (proj2 (children_by_path Fixtures.sceneA Fixtures.rootA Fixtures.main)
             Fixtures.hud); left; reflexivity.
Defined.
